(** * EvolvX ranking system: a shallow embedding of
      [frontend/utils/rankingSystem.js] and the properties of its
      score formula, tier resolution, streak calculation and stats
      aggregation.

    Conventions of the embedding.
    - A JavaScript number that holds an integer is a [Z]; the only
      non-integer numbers of the module (the progress percentage and the
      intermediate values of the consistency score) are exact rationals
      [Q], so IEEE rounding is not modelled.  [Infinity], the upper bound
      of the Diamond tier, is the constructor [Inf] of [Num].
    - A [Date] is its time value, milliseconds since the epoch, a [Z];
      every [workout_date] is taken to parse to a valid date.  Local time
      has a fixed offset [tz] from UTC (no daylight-saving transitions),
      so local midnights are [MS_PER_DAY] apart.
    - [Array.prototype.sort] sorts in place and is stable; a function
      that receives the caller's array returns, next to its result, the
      contents of that array when it returns. *)

From Stdlib Require Import ZArith QArith Qminmax Qround Bool List String Ascii Lia.
From Stdlib Require Import Permutation Sorted.
Import ListNotations.
Local Open Scope Z_scope.

(** ** Numbers *)

(** The values [minPoints]/[maxPoints] range over: integers and
    [Infinity]. *)
Inductive Num : Type :=
| Fin (z : Z)
| Inf.

(** [points <= n] *)
Definition num_leb (points : Z) (n : Num) : bool :=
  match n with
  | Fin z => points <=? z
  | Inf => true
  end.

(** [n === Infinity] *)
Definition isInfinity (n : Num) : bool :=
  match n with
  | Fin _ => false
  | Inf => true
  end.

(** [n + 1 - points] *)
Definition num_succ_sub (n : Num) (points : Z) : Num :=
  match n with
  | Fin z => Fin (z + 1 - points)
  | Inf => Inf
  end.

(** [n - k] *)
Definition num_sub (n : Num) (k : Z) : Num :=
  match n with
  | Fin z => Fin (z - k)
  | Inf => Inf
  end.

(** [Math.ceil(a / b)] and [Math.floor(a / b)] on the exact quotient. *)
Definition ceilDiv (a b : Z) : Z := Qceiling (inject_Z a / inject_Z b).
Definition floorDiv (a b : Z) : Z := Qfloor (inject_Z a / inject_Z b).

(** ** The rank table *)

Record Rank : Type := mkRank {
  name : string;
  level : Z;
  color : string;
  gradient : list string;
  icon : string;
  minPoints : Z;
  maxPoints : Num;
  title : string;
  description : string
}.

Definition BRONZE : Rank :=
  {| name := "Bronze"; level := 1; color := "#CD7F32";
     gradient := ["#CD7F32"; "#B8860B"]%string; icon := "medal";
     minPoints := 0; maxPoints := Fin 99;
     title := "Fitness Newcomer";
     description := "Starting your fitness journey" |}.

Definition SILVER : Rank :=
  {| name := "Silver"; level := 2; color := "#C0C0C0";
     gradient := ["#C0C0C0"; "#A8A8A8"]%string; icon := "medal-outline";
     minPoints := 100; maxPoints := Fin 299;
     title := "Dedicated Lifter";
     description := "Building consistent habits" |}.

Definition GOLD : Rank :=
  {| name := "Gold"; level := 3; color := "#FFD700";
     gradient := ["#FFD700"; "#FFA500"]%string; icon := "trophy";
     minPoints := 300; maxPoints := Fin 599;
     title := "Fitness Expert";
     description := "Mastering your workouts" |}.

Definition PLATINUM : Rank :=
  {| name := "Platinum"; level := 4; color := "#E5E4E2";
     gradient := ["#E5E4E2"; "#B8B8B8"]%string; icon := "trophy-outline";
     minPoints := 600; maxPoints := Fin 999;
     title := "Elite Athlete";
     description := "Peak performance achieved" |}.

Definition DIAMOND : Rank :=
  {| name := "Diamond"; level := 5; color := "#B9F2FF";
     gradient := ["#B9F2FF"; "#87CEEB"]%string; icon := "diamond-stone";
     minPoints := 1000; maxPoints := Inf;
     title := "Legendary Champion";
     description := "Transcended mortal limits" |}.

(** [Object.values(RANKS)]: the tiers in the order the object literal
    lists them. *)
Definition ranks : list Rank := [BRONZE; SILVER; GOLD; PLATINUM; DIAMOND].

(** ** Score formula *)

(** The object [calculateRankingPoints] destructures: a field that is
    absent ([None]) takes the default of the destructuring pattern. *)
Record UserStats : Type := mkUserStats {
  totalWorkouts : option Z;
  currentStreak : option Z;
  longestStreak : option Z;
  totalExercises : option Z;
  workoutDays : option Z;
  personalRecords : option Z;
  consistencyScore : option Z
}.

Definition orDefault (d : Z) (field : option Z) : Z :=
  match field with
  | Some v => v
  | None => d
  end.

(** [points] is an integer when the fields are, so the final
    [Math.floor(points)] is [points]. *)
Definition calculateRankingPoints (userStats : UserStats) : Z :=
  let totalWorkouts := orDefault 0 (totalWorkouts userStats) in
  let currentStreak := orDefault 0 (currentStreak userStats) in
  let longestStreak := orDefault 0 (longestStreak userStats) in
  let totalExercises := orDefault 0 (totalExercises userStats) in
  let workoutDays := orDefault 0 (workoutDays userStats) in
  let personalRecords := orDefault 0 (personalRecords userStats) in
  let consistencyScore := orDefault 0 (consistencyScore userStats) in
  let points := 0 in
  let points := points + totalWorkouts * 2 in
  let points := points + currentStreak * 3 in
  let points := points + longestStreak * 1 in
  let points := points + floorDiv totalExercises 5 in
  let points := points + consistencyScore in
  let points := points + personalRecords * 10 in
  let points := points + floorDiv workoutDays 7 in
  Z.max 0 points.

(** ** Tier resolution *)

(** [points >= rank.minPoints && points <= rank.maxPoints] *)
Definition inRange (points : Z) (rank : Rank) : bool :=
  (minPoints rank <=? points) && num_leb points (maxPoints rank).

(** The ascending loops of [getProgressToNextRank] and
    [getPointsToNextRank]: the first tier of the table whose range holds
    [points]. *)
Fixpoint findInRange (points : Z) (rs : list Rank) : option Rank :=
  match rs with
  | [] => None
  | rank :: rest =>
      if inRange points rank then Some rank else findInRange points rest
  end.

Definition getProgressToNextRank (points : Z) : Q :=
  match findInRange points ranks with
  | Some rank =>
      match maxPoints rank with
      | Inf => 100%Q
      | Fin maxP =>
          let progress :=
            (inject_Z (points - minPoints rank)
             / inject_Z (maxP - minPoints rank) * 100)%Q in
          Qmin 100 (Qmax 0 progress)
      end
  | None => 0%Q
  end.

Definition getPointsToNextRank (points : Z) : Num :=
  match findInRange points ranks with
  | Some rank =>
      if isInfinity (maxPoints rank) then Fin 0
      else num_succ_sub (maxPoints rank) points
  | None => num_succ_sub (maxPoints BRONZE) points
  end.

(** The object [getUserRank] returns: the tier's fields spread, with
    three more. *)
Record UserRank : Type := mkUserRank {
  rank : Rank;
  currentPoints : Z;
  progressToNext : Q;
  pointsToNext : Num
}.

(** The descending loop of [getUserRank], given the table reversed: the
    highest tier whose [minPoints] is at most [points]. *)
Fixpoint findFromTop (points : Z) (rs : list Rank) : option Rank :=
  match rs with
  | [] => None
  | rank :: rest =>
      if minPoints rank <=? points then Some rank else findFromTop points rest
  end.

Definition getUserRank (points : Z) : UserRank :=
  let found :=
    match findFromTop points (rev ranks) with
    | Some rank => rank
    | None => BRONZE
    end in
  {| rank := found;
     currentPoints := points;
     progressToNext := getProgressToNextRank points;
     pointsToNext := getPointsToNextRank points |}.

(** ** Arrays, sets and dates *)

(** [Array.prototype.sort(compareFn)]: a stable sort; [x] goes before
    [y] when [compareFn x y <= 0] and [x] came first.  The array is
    sorted in place, so the result is also the new contents of the
    array the method was called on. *)
Fixpoint insertSorted {A : Type} (compareFn : A -> A -> Z) (x : A)
    (sorted : list A) : list A :=
  match sorted with
  | [] => [x]
  | y :: rest =>
      if compareFn x y <=? 0 then x :: sorted
      else y :: insertSorted compareFn x rest
  end.

Definition arraySort {A : Type} (compareFn : A -> A -> Z) (arr : list A)
    : list A :=
  fold_right (insertSorted compareFn) [] arr.

(** A [Set] in insertion order: [add] keeps the first occurrence. *)
Definition setAdd {A : Type} (eqb : A -> A -> bool) (s : list A) (x : A)
    : list A :=
  if existsb (eqb x) s then s else s ++ [x].

(** [new Set(iterable)] *)
Definition newSet {A : Type} (eqb : A -> A -> bool) (l : list A) : list A :=
  fold_left (setAdd eqb) l [].

Definition MS_PER_DAY : Z := 1000 * 60 * 60 * 24.

(** [String.prototype.toLowerCase], on ASCII letters. *)
Definition lowerAscii (c : ascii) : ascii :=
  let n := nat_of_ascii c in
  if (Nat.leb 65 n && Nat.leb n 90)%bool then ascii_of_nat (n + 32) else c.

Fixpoint toLowerCase (s : string) : string :=
  match s with
  | EmptyString => EmptyString
  | String c rest => String (lowerAscii c) (toLowerCase rest)
  end.

(** ** Workout records *)

(** Of an exercise entry only [name] is read; it may be absent. *)
Record Exercise : Type := mkExercise {
  exercise_name : option string
}.

Record Workout : Type := mkWorkout {
  workout_date : Z;
  exercises : option (list Exercise)
}.

(** [exercise.name?.toLowerCase() || 'unknown']: the empty string is
    falsy. *)
Definition exerciseKey (exercise : Exercise) : string :=
  match exercise_name exercise with
  | Some n =>
      let lowered := toLowerCase n in
      if String.eqb lowered "" then "unknown"%string else lowered
  | None => "unknown"%string
  end.

(** The body of [workouts.forEach(...)] that fills [uniqueExercises]. *)
Definition addWorkoutExercises (uniqueExercises : list string)
    (workout : Workout) : list string :=
  match exercises workout with
  | Some exs =>
      fold_left (fun s exercise => setAdd String.eqb s (exerciseKey exercise))
        exs uniqueExercises
  | None => uniqueExercises
  end.

(** The streak pair [calculateStreaks] returns. *)
Record Streaks : Type := mkStreaks {
  streak_current : Z;
  streak_longest : Z
}.

Definition zeroStats : UserStats :=
  {| totalWorkouts := Some 0; currentStreak := Some 0;
     longestStreak := Some 0; totalExercises := Some 0;
     workoutDays := Some 0; personalRecords := Some 0;
     consistencyScore := Some 0 |}.

Section Clock.

(** Offset of local time from UTC, in milliseconds, and the time value
    of [new Date()] at the call. *)
Variable tz : Z.
Variable now : Z.

(** [date.setHours(0, 0, 0, 0)]: local midnight of the date's day. *)
Definition setHoursZero (t : Z) : Z := t - (t + tz) mod MS_PER_DAY.

(** [date.setDate(date.getDate() - 1)]: the same local time one day
    earlier. *)
Definition setDatePrev (t : Z) : Z := t - MS_PER_DAY.

(** The loop that computes [currentStreak], over [workoutDates] from
    index [i] on; [break] returns the count reached. *)
Fixpoint currentStreakLoop (workoutDates : list Z) (checkDate : Z)
    (currentStreak : Z) : Z :=
  match workoutDates with
  | [] => currentStreak
  | workoutDate :: rest =>
      let daysDiff := floorDiv (checkDate - workoutDate) MS_PER_DAY in
      if (daysDiff =? 0) || (daysDiff =? 1) then
        currentStreakLoop rest (setDatePrev workoutDate) (currentStreak + 1)
      else currentStreak
  end.

(** The same walk, recording the dates that were counted: one entry per
    increment of [currentStreak]. *)
Fixpoint countedDates (workoutDates : list Z) (checkDate : Z) : list Z :=
  match workoutDates with
  | [] => []
  | workoutDate :: rest =>
      let daysDiff := floorDiv (checkDate - workoutDate) MS_PER_DAY in
      if (daysDiff =? 0) || (daysDiff =? 1) then
        workoutDate :: countedDates rest (setDatePrev workoutDate)
      else []
  end.

(** The loop that computes [longestStreak], from index [i >= 1] on, with
    [prevDate = workoutDates[i - 1]]; returns
    [(longestStreak, tempStreak)]. *)
Fixpoint longestStreakLoop (prevDate : Z) (rest : list Z)
    (longestStreak tempStreak : Z) : Z * Z :=
  match rest with
  | [] => (longestStreak, tempStreak)
  | currDate :: rest' =>
      let daysDiff := floorDiv (prevDate - currDate) MS_PER_DAY in
      if daysDiff =? 1 then
        longestStreakLoop currDate rest' longestStreak (tempStreak + 1)
      else
        longestStreakLoop currDate rest' (Z.max longestStreak tempStreak) 1
  end.

(** The distinct local midnights of the workouts, latest first. *)
Definition workoutDatesOf (sortedWorkouts : list Workout) : list Z :=
  arraySort (fun a b => b - a)
    (newSet Z.eqb (map (fun w => setHoursZero (workout_date w)) sortedWorkouts)).

(** [calculateStreaks]: the streaks, and the contents of [workouts] on
    return. *)
Definition calculateStreaks (workouts : list Workout)
    : Streaks * list Workout :=
  match workouts with
  | [] => ({| streak_current := 0; streak_longest := 0 |}, workouts)
  | _ :: _ =>
      let sortedWorkouts :=
        arraySort (fun a b => workout_date b - workout_date a) workouts in
      let today := setHoursZero now in
      let workoutDates := workoutDatesOf sortedWorkouts in
      let currentStreak := currentStreakLoop workoutDates today 0 in
      let '(longestStreak, tempStreak) :=
        match workoutDates with
        | [] => (0, 1)
        | first :: rest => longestStreakLoop first rest 0 1
        end in
      let longestStreak := Z.max longestStreak tempStreak in
      ({| streak_current := currentStreak; streak_longest := longestStreak |},
       sortedWorkouts)
  end.

(** [calculateUserStats]: the stats, and the contents of [workouts] on
    return.  [sortedWorkouts] and [workouts] are the same array, which
    [calculateStreaks] sorts once more.  The second parameter, [user],
    is never read. *)
Definition calculateUserStats (workouts : list Workout)
    : UserStats * list Workout :=
  match workouts with
  | [] => (zeroStats, workouts)
  | w0 :: _ =>
      let sortedWorkouts :=
        arraySort (fun a b => workout_date a - workout_date b) workouts in
      let totalWorkouts := Z.of_nat (List.length sortedWorkouts) in
      let uniqueExercises := fold_left addWorkoutExercises sortedWorkouts [] in
      let firstWorkoutDate := workout_date (hd w0 sortedWorkouts) in
      let lastWorkoutDate := workout_date (last sortedWorkouts w0) in
      let workoutDays :=
        ceilDiv (lastWorkoutDate - firstWorkoutDate) MS_PER_DAY + 1 in
      let '(streaks, workouts') := calculateStreaks sortedWorkouts in
      let weeksActive := Qmax 1 (inject_Z workoutDays / 7) in
      let workoutsPerWeek := (inject_Z totalWorkouts / weeksActive)%Q in
      let consistencyScore := Z.min 100 (Qfloor (workoutsPerWeek * 20)) in
      let personalRecords := floorDiv totalWorkouts 5 in
      ({| totalWorkouts := Some totalWorkouts;
          currentStreak := Some (streak_current streaks);
          longestStreak := Some (streak_longest streaks);
          totalExercises := Some (Z.of_nat (List.length uniqueExercises));
          workoutDays := Some workoutDays;
          personalRecords := Some personalRecords;
          consistencyScore := Some consistencyScore |},
       workouts')
  end.

End Clock.

(** ** Vocabulary of the properties *)

(** The seven inputs of the score formula. *)
Inductive Field : Type :=
| TotalWorkouts | CurrentStreak | LongestStreak | TotalExercises
| WorkoutDays | PersonalRecords | ConsistencyScore.

(** The value the formula reads for a field (absent fields read 0). *)
Definition getField (f : Field) (us : UserStats) : Z :=
  orDefault 0
    match f with
    | TotalWorkouts => totalWorkouts us
    | CurrentStreak => currentStreak us
    | LongestStreak => longestStreak us
    | TotalExercises => totalExercises us
    | WorkoutDays => workoutDays us
    | PersonalRecords => personalRecords us
    | ConsistencyScore => consistencyScore us
    end.

(** The same object with one field replaced. *)
Definition setField (f : Field) (v : Z) (us : UserStats) : UserStats :=
  match f with
  | TotalWorkouts =>
      mkUserStats (Some v) (currentStreak us) (longestStreak us)
        (totalExercises us) (workoutDays us) (personalRecords us)
        (consistencyScore us)
  | CurrentStreak =>
      mkUserStats (totalWorkouts us) (Some v) (longestStreak us)
        (totalExercises us) (workoutDays us) (personalRecords us)
        (consistencyScore us)
  | LongestStreak =>
      mkUserStats (totalWorkouts us) (currentStreak us) (Some v)
        (totalExercises us) (workoutDays us) (personalRecords us)
        (consistencyScore us)
  | TotalExercises =>
      mkUserStats (totalWorkouts us) (currentStreak us) (longestStreak us)
        (Some v) (workoutDays us) (personalRecords us) (consistencyScore us)
  | WorkoutDays =>
      mkUserStats (totalWorkouts us) (currentStreak us) (longestStreak us)
        (totalExercises us) (Some v) (personalRecords us)
        (consistencyScore us)
  | PersonalRecords =>
      mkUserStats (totalWorkouts us) (currentStreak us) (longestStreak us)
        (totalExercises us) (workoutDays us) (Some v) (consistencyScore us)
  | ConsistencyScore =>
      mkUserStats (totalWorkouts us) (currentStreak us) (longestStreak us)
        (totalExercises us) (workoutDays us) (personalRecords us) (Some v)
  end.

(** The weighted sum of the specification, over the values of the
    fields as they are. *)
Definition weightedSum (us : UserStats) : Z :=
  2 * getField TotalWorkouts us
  + 3 * getField CurrentStreak us
  + 1 * getField LongestStreak us
  + getField TotalExercises us / 5
  + getField ConsistencyScore us
  + 10 * getField PersonalRecords us
  + getField WorkoutDays us / 7.

(** The specification's reading of the clamp: every input is raised to
    zero first, then the weighted sum is taken. *)
Definition clampInputs (us : UserStats) : UserStats :=
  {| totalWorkouts := Some (Z.max 0 (getField TotalWorkouts us));
     currentStreak := Some (Z.max 0 (getField CurrentStreak us));
     longestStreak := Some (Z.max 0 (getField LongestStreak us));
     totalExercises := Some (Z.max 0 (getField TotalExercises us));
     workoutDays := Some (Z.max 0 (getField WorkoutDays us));
     personalRecords := Some (Z.max 0 (getField PersonalRecords us));
     consistencyScore := Some (Z.max 0 (getField ConsistencyScore us)) |}.

Definition specScoreClampedInputs (us : UserStats) : Z :=
  weightedSum (clampInputs us).

(** The specification's progress percentage for a tier with a finite
    upper bound [maxP]. *)
Definition specProgress (points : Z) (r : Rank) (maxP : Z) : Q :=
  Qmin 100
    (Qmax 0
       (100 * inject_Z (points - minPoints r)
        / inject_Z (maxP - minPoints r))).

(** The specification's points-to-next for a non-top tier:
    [tier.maxPoints - points]. *)
Definition specPointsToNext (points : Z) (r : Rank) : Num :=
  num_sub (maxPoints r) points.

(** The differences between neighbours of a list of dates. *)
Fixpoint adjacentGaps (dates : list Z) : list Z :=
  match dates with
  | d1 :: ((d2 :: _) as rest) => (d1 - d2) :: adjacentGaps rest
  | _ => []
  end.

(** *** Concrete inputs *)

(** The scenario of the specification's worked example. *)
Definition scenarioStats : UserStats :=
  {| totalWorkouts := Some 50; currentStreak := Some 7;
     longestStreak := Some 10; totalExercises := Some 20;
     workoutDays := Some 60; personalRecords := Some 10;
     consistencyScore := Some 80 |}.

(** A stats object with one negative field. *)
Definition negativeWorkoutsStats : UserStats :=
  {| totalWorkouts := Some (-5); currentStreak := Some 10;
     longestStreak := Some 0; totalExercises := Some 0;
     workoutDays := Some 0; personalRecords := Some 0;
     consistencyScore := Some 0 |}.

(** A workout at local midnight (UTC) of day number [d], with no
    exercise list. *)
Definition workoutOnDay (d : Z) : Workout :=
  {| workout_date := d * MS_PER_DAY; exercises := None |}.

(** Workouts on day 10 and on day 8, none on day 9. *)
Definition skippedDayHistory : list Workout :=
  [workoutOnDay 10; workoutOnDay 8].

(** Workouts handed over oldest first. *)
Definition oldestFirstHistory : list Workout :=
  [workoutOnDay 1; workoutOnDay 2].

(** Noon (UTC) of day 10. *)
Definition noonOfDay10 : Z := 10 * MS_PER_DAY + MS_PER_DAY / 2.

(** ** The rest of the ranking module and its callers *)

(** [getNextRank]: the loop stops one short of the last tier; [null] is
    [None]. *)
Fixpoint nextRankAfter (currentPoints : Z) (rs : list Rank) : option Rank :=
  match rs with
  | rank :: ((next :: _) as rest) =>
      if inRange currentPoints rank then Some next
      else nextRankAfter currentPoints rest
  | _ => None
  end.

Definition getNextRank (currentPoints : Z) : option Rank :=
  nextRankAfter currentPoints ranks.

(** The object literal [RANKS], as its own properties in the order they
    are written. *)
Definition RANKS : list (string * Rank) :=
  [("BRONZE", BRONZE); ("SILVER", SILVER); ("GOLD", GOLD);
   ("PLATINUM", PLATINUM); ("DIAMOND", DIAMOND)]%string.

(** [obj[key]] on the own properties of an object literal; [undefined]
    is [None].  The keys looked up below are tier names; property names
    inherited from [Object.prototype] are outside the model. *)
Fixpoint getProperty {V : Type} (obj : list (string * V)) (key : string)
    : option V :=
  match obj with
  | [] => None
  | (k, v) :: rest => if String.eqb k key then Some v else getProperty rest key
  end.

(** [String.prototype.toUpperCase], on ASCII letters. *)
Definition upperAscii (c : ascii) : ascii :=
  let n := nat_of_ascii c in
  if (Nat.leb 97 n && Nat.leb n 122)%bool then ascii_of_nat (n - 32) else c.

Fixpoint toUpperCase (s : string) : string :=
  match s with
  | EmptyString => EmptyString
  | String c rest => String (upperAscii c) (toUpperCase rest)
  end.

(** [s || fallback] on strings: the empty string is falsy. *)
Definition orString (s fallback : string) : string :=
  if String.eqb s "" then fallback else s.

(** [getRankColor(rank)] reads only [rank.name]. *)
Definition getRankColor (rankName : string) : string :=
  match getProperty RANKS (toUpperCase rankName) with
  | Some r => orString (color r) (color BRONZE)
  | None => color BRONZE
  end.

(** [getRankGradient(rank)]: an array is truthy, so the fallback is
    taken only when the key is missing. *)
Definition getRankGradient (rankName : string) : list string :=
  match getProperty RANKS (toUpperCase rankName) with
  | Some r => gradient r
  | None => gradient BRONZE
  end.

(** *** Leaderboard screen *)

(** [Object.values(RANKS).find(r => r.name === tier)], then the colour
    of the tier found or bronze. *)
Definition getLeaderboardRankColor (tier : string) : string :=
  match find (fun r => String.eqb (name r) tier) ranks with
  | Some rank => color rank
  | None => "#CD7F32"%string
  end.

(** *** Friend search screen *)

(** The [switch] of the screen's own [getRankColor(tier)]. *)
Definition friendSearchRankColor (tier : string) : string :=
  if String.eqb tier "Platinum Spartan" then "#E5E4E2"
  else if String.eqb tier "Gold Gladiator" then "#FFD700"
  else if String.eqb tier "Silver Warrior" then "#C0C0C0"
  else if String.eqb tier "Bronze Fighter" then "#CD7F32"
  else if String.eqb tier "Diamond Titan" then "#B9F2FF"
  else "#0099cc".

(** *** Profile and avatar screens: the rank read from the database *)

(** The [thresholds] literal of [getNextRankThreshold]. *)
Definition thresholds : list (string * Z) :=
  [("Bronze Fighter", 100); ("Silver Warrior", 300); ("Gold Gladiator", 600);
   ("Platinum Spartan", 1000); ("Diamond Titan", 9999)]%string.

(** [n || fallback] on numbers: 0 is falsy. *)
Definition orNumber (n : option Z) (fallback : Z) : Z :=
  match n with
  | Some v => if v =? 0 then fallback else v
  | None => fallback
  end.

Definition getNextRankThreshold (currentRank : string) : Z :=
  orNumber (getProperty thresholds currentRank) 100.

(** The literal that [calculateProgressToNext] indexes for
    [prevThreshold]. *)
Definition prevThresholds : list (string * Z) :=
  [("Bronze Fighter", 0); ("Silver Warrior", 100); ("Gold Gladiator", 300);
   ("Platinum Spartan", 600); ("Diamond Titan", 1000)]%string.

(** The progress of the database path is a fraction between 0 and 1. *)
Definition calculateProgressToNext (currentPoints : Z) (currentRank : string)
    : Q :=
  let nextThreshold := getNextRankThreshold currentRank in
  let prevThreshold := orNumber (getProperty prevThresholds currentRank) 0 in
  if String.eqb currentRank "Diamond Titan" then 1%Q
  else
    let progress :=
      (inject_Z (currentPoints - prevThreshold)
       / inject_Z (nextThreshold - prevThreshold))%Q in
    Qmax 0 (Qmin 1 progress).

(** The [rankMapping] literal of the avatar screen's
    [getRankColorFromSystem] and [getRankIcon]: database names and short
    names to keys of [RANKS]. *)
Definition rankMapping : list (string * string) :=
  [("Bronze Fighter", "BRONZE"); ("Silver Warrior", "SILVER");
   ("Gold Gladiator", "GOLD"); ("Platinum Spartan", "PLATINUM");
   ("Diamond Titan", "DIAMOND");
   ("Bronze", "BRONZE"); ("Silver", "SILVER"); ("Gold", "GOLD");
   ("Platinum", "PLATINUM"); ("Diamond", "DIAMOND")]%string.

(** [rankMapping[rankName] || 'BRONZE'] *)
Definition mappedRankKey (rankName : string) : string :=
  match getProperty rankMapping rankName with
  | Some k => orString k "BRONZE"
  | None => "BRONZE"%string
  end.

(** [RANKS[mappedRank]?.color || '#CD7F32'] *)
Definition getRankColorFromSystem (rankName : string) : string :=
  match getProperty RANKS (mappedRankKey rankName) with
  | Some r => orString (color r) "#CD7F32"
  | None => "#CD7F32"%string
  end.

(** [RANKS[mappedRank]?.icon || 'medal'] *)
Definition getRankIcon (rankName : string) : string :=
  match getProperty RANKS (mappedRankKey rankName) with
  | Some r => orString (icon r) "medal"
  | None => "medal"%string
  end.

(** The rank object the profile screen builds from a leaderboard entry
    of the database: [entry.total_points || 0] and
    [entry.rank_tier || 'Bronze Fighter'] feed the four fields. *)
Record DatabaseRank : Type := mkDatabaseRank {
  db_name : string;
  db_currentPoints : Z;
  db_pointsToNext : Z;
  db_progressToNext : Q
}.

Definition databaseRank (total_points : option Z) (rank_tier : option string)
    : DatabaseRank :=
  let dbPoints := orNumber total_points 0 in
  let dbRankTier :=
    match rank_tier with
    | Some t => orString t "Bronze Fighter"
    | None => "Bronze Fighter"%string
    end in
  {| db_name := dbRankTier;
     db_currentPoints := dbPoints;
     db_pointsToNext := Z.max 0 (getNextRankThreshold dbRankTier - dbPoints);
     db_progressToNext := calculateProgressToNext dbPoints dbRankTier |}.

(** The five tier names the database sends. *)
Definition databaseTierNames : list string :=
  map fst thresholds.

(** *** Vocabulary of the streak properties *)

(** Strictly descending lists of integers. *)
Definition descending (l : list Z) : Prop :=
  StronglySorted (fun a b => b < a) l.

(** The local midnight of the day of a workout. *)
Definition workoutDay (tz : Z) (w : Workout) : Z :=
  setHoursZero tz (workout_date w).


(** The two loops of [calculateStreaks] run on a list of dates: what
    the function returns once [workoutDates] is built. *)
Definition streaksOfDates (today : Z) (workoutDates : list Z) : Streaks :=
  let '(longestStreak, tempStreak) :=
    match workoutDates with
    | [] => (0, 1)
    | first :: rest => longestStreakLoop first rest 0 1
    end in
  {| streak_current := currentStreakLoop workoutDates today 0;
     streak_longest := Z.max longestStreak tempStreak |}.

(** The exercise names of a history as [calculateUserStats] keys them,
    in the order the two nested [forEach] loops visit them. *)
Definition exerciseKeysOf (workouts : list Workout) : list string :=
  flat_map
    (fun w =>
       match exercises w with
       | Some exs => map exerciseKey exs
       | None => []
       end)
    workouts.

(** One workout on day 10 with the same exercise spelt twice, an
    exercise without a name and one with an empty name. *)
Definition mixedCaseHistory : list Workout :=
  [{| workout_date := 10 * MS_PER_DAY;
      exercises :=
        Some [{| exercise_name := Some "Bench Press"%string |};
              {| exercise_name := Some "bench press"%string |};
              {| exercise_name := None |};
              {| exercise_name := Some ""%string |}] |}].

(** * Properties *)

(** ** Score formula *)

(** On integers [Math.floor(a / b)] is the floored division of [Z]. *)
Lemma floorDiv_Zdiv (a b : Z) : floorDiv a b = a / b.
Proof. unfold floorDiv. symmetry. apply Zdiv_Qdiv. Qed.

Lemma calculateRankingPoints_unfold (us : UserStats) :
  calculateRankingPoints us = Z.max 0 (weightedSum us).
Proof.
  unfold calculateRankingPoints, weightedSum, getField.
  rewrite !floorDiv_Zdiv. f_equal. lia.
Qed.

(** C3, as amended: the score is the weighted sum of the fields, raised
    to zero when the sum is negative; the clamp acts on the sum and not
    on the inputs.  The result is never negative. *)
Theorem score_is_clamped_weighted_sum (us : UserStats) :
  calculateRankingPoints us = Z.max 0 (weightedSum us)
  /\ 0 <= calculateRankingPoints us.
Proof.
  rewrite calculateRankingPoints_unfold. split; [reflexivity | lia].
Qed.

(** C3, as stated, fails: with [totalWorkouts = -5] and
    [currentStreak = 10] the code returns [max 0 (-10 + 30) = 20], while
    clamping the inputs first gives [0 + 30 = 30]. *)
Lemma score_does_not_clamp_inputs :
  calculateRankingPoints negativeWorkoutsStats = 20
  /\ specScoreClampedInputs negativeWorkoutsStats = 30
  /\ calculateRankingPoints negativeWorkoutsStats
     <> specScoreClampedInputs negativeWorkoutsStats.
Proof.
  repeat split; try reflexivity. vm_compute. discriminate.
Qed.

Lemma getField_clampInputs (f : Field) (us : UserStats) :
  getField f (clampInputs us) = Z.max 0 (getField f us).
Proof. destruct f; reflexivity. Qed.

(** On inputs that are all non-negative the two readings agree, and the
    score is the weighted sum itself. *)
Lemma score_on_nonnegative_inputs (us : UserStats) :
  (forall f, 0 <= getField f us) ->
  calculateRankingPoints us = weightedSum us
  /\ calculateRankingPoints us = specScoreClampedInputs us.
Proof.
  intros Hpos.
  pose proof (Hpos TotalWorkouts). pose proof (Hpos CurrentStreak).
  pose proof (Hpos LongestStreak). pose proof (Hpos TotalExercises).
  pose proof (Hpos WorkoutDays). pose proof (Hpos PersonalRecords).
  pose proof (Hpos ConsistencyScore).
  assert (Hsum : 0 <= weightedSum us).
  { unfold weightedSum.
    pose proof (Z.div_pos (getField TotalExercises us) 5).
    pose proof (Z.div_pos (getField WorkoutDays us) 7). lia. }
  rewrite calculateRankingPoints_unfold. split; [lia |].
  unfold specScoreClampedInputs, weightedSum.
  rewrite !getField_clampInputs, !Z.max_r by assumption. lia.
Qed.

Lemma getField_setField_same (f : Field) (v : Z) (us : UserStats) :
  getField f (setField f v us) = v.
Proof. destruct f; reflexivity. Qed.

Lemma getField_setField_other (f g : Field) (v : Z) (us : UserStats) :
  f <> g -> getField g (setField f v us) = getField g us.
Proof. destruct f, g; intros Hne; try reflexivity; contradiction. Qed.

(** The weighted sum is monotone in all fields at once. *)
Lemma weightedSum_monotone (us us' : UserStats) :
  (forall f, getField f us <= getField f us') ->
  weightedSum us <= weightedSum us'.
Proof.
  intros Hle. unfold weightedSum.
  pose proof (Hle TotalWorkouts). pose proof (Hle CurrentStreak).
  pose proof (Hle LongestStreak). pose proof (Hle ConsistencyScore).
  pose proof (Hle PersonalRecords).
  pose proof (Z.div_le_mono _ _ 5 ltac:(lia) (Hle TotalExercises)).
  pose proof (Z.div_le_mono _ _ 7 ltac:(lia) (Hle WorkoutDays)).
  lia.
Qed.

(** C8: raising any one field by [d >= 0], the other fields unchanged,
    never lowers the score. *)
Theorem score_monotone_in_each_field (f : Field) (us : UserStats) (d : Z) :
  0 <= d ->
  calculateRankingPoints us
  <= calculateRankingPoints (setField f (getField f us + d) us).
Proof.
  intros Hd. rewrite !calculateRankingPoints_unfold.
  apply Z.max_le_compat_l, weightedSum_monotone. intros g.
  destruct f, g; cbn -[Z.add]; unfold getField; cbn -[Z.add]; lia.
Qed.

Lemma score_monotone_in_each_field_witness :
  0 <= 4
  /\ calculateRankingPoints scenarioStats
     <= calculateRankingPoints
          (setField TotalExercises (getField TotalExercises scenarioStats + 4)
             scenarioStats).
Proof.
  split; [lia |].
  apply (score_monotone_in_each_field TotalExercises scenarioStats 4). lia.
Defined.

(** ** Tier resolution *)

(** Case analysis on the integer comparisons of a goal. *)
Ltac leb_cases :=
  repeat match goal with
         | |- context [?a <=? ?b] =>
             destruct (Z.leb_spec a b); try lia; cbn [andb orb negb]
         end.

Ltac unfold_ranks :=
  cbn [ranks rev app findInRange findFromTop]; unfold inRange;
  cbn [num_leb minPoints maxPoints BRONZE SILVER GOLD PLATINUM DIAMOND].

(** What the ascending range search finds. *)
Lemma findInRange_bronze (p : Z) :
  0 <= p <= 99 -> findInRange p ranks = Some BRONZE.
Proof. intros Hp. unfold_ranks. leb_cases. reflexivity. Qed.

Lemma findInRange_silver (p : Z) :
  100 <= p <= 299 -> findInRange p ranks = Some SILVER.
Proof. intros Hp. unfold_ranks. leb_cases. reflexivity. Qed.

Lemma findInRange_gold (p : Z) :
  300 <= p <= 599 -> findInRange p ranks = Some GOLD.
Proof. intros Hp. unfold_ranks. leb_cases. reflexivity. Qed.

Lemma findInRange_platinum (p : Z) :
  600 <= p <= 999 -> findInRange p ranks = Some PLATINUM.
Proof. intros Hp. unfold_ranks. leb_cases. reflexivity. Qed.

Lemma findInRange_diamond (p : Z) :
  1000 <= p -> findInRange p ranks = Some DIAMOND.
Proof. intros Hp. unfold_ranks. leb_cases. reflexivity. Qed.

Lemma findInRange_negative (p : Z) :
  p < 0 -> findInRange p ranks = None.
Proof. intros Hp. unfold_ranks. leb_cases. reflexivity. Qed.

(** What the descending threshold search of [getUserRank] returns. *)
Lemma getUserRank_rank (p : Z) :
  rank (getUserRank p) =
    if 1000 <=? p then DIAMOND
    else if 600 <=? p then PLATINUM
    else if 300 <=? p then GOLD
    else if 100 <=? p then SILVER
    else BRONZE.
Proof.
  unfold getUserRank. cbn [rank]. unfold_ranks. leb_cases; reflexivity.
Qed.

(** Membership in the table, one tier at a time. *)
Lemma in_ranks (r : Rank) :
  In r ranks ->
  r = BRONZE \/ r = SILVER \/ r = GOLD \/ r = PLATINUM \/ r = DIAMOND.
Proof.
  unfold ranks. cbn [In]. intuition auto.
Qed.

(** The range test, spelt out. *)
Lemma inRange_iff (p : Z) (r : Rank) :
  inRange p r = true <->
  minPoints r <= p /\ match maxPoints r with Fin m => p <= m | Inf => True end.
Proof.
  unfold inRange, num_leb. rewrite andb_true_iff, Z.leb_le.
  destruct (maxPoints r); [rewrite Z.leb_le |]; tauto.
Qed.

(** C4: a non-negative point total lies in the range of exactly one
    tier of the table, and [getUserRank] resolves to that tier; a total
    equal to a tier's [minPoints] resolves to that tier; each tier ends
    one point below the next tier's [minPoints], and the top tier has no
    upper bound. *)
Theorem tier_ranges_partition (p : Z) :
  0 <= p ->
  (exists r,
      In r ranks /\ inRange p r = true /\ rank (getUserRank p) = r
      /\ forall r', In r' ranks -> inRange p r' = true -> r' = r)
  /\ (forall r, In r ranks -> rank (getUserRank (minPoints r)) = r)
  /\ (maxPoints BRONZE = Fin (minPoints SILVER - 1)
      /\ maxPoints SILVER = Fin (minPoints GOLD - 1)
      /\ maxPoints GOLD = Fin (minPoints PLATINUM - 1)
      /\ maxPoints PLATINUM = Fin (minPoints DIAMOND - 1)
      /\ maxPoints DIAMOND = Inf)
  /\ (minPoints DIAMOND <= p -> inRange p DIAMOND = true).
Proof.
  intros Hp. repeat split.
  - exists (rank (getUserRank p)). rewrite getUserRank_rank.
    repeat split.
    + unfold ranks. cbn [In]. leb_cases; auto 6.
    + leb_cases; apply inRange_iff;
        cbn [minPoints maxPoints BRONZE SILVER GOLD PLATINUM DIAMOND]; lia.
    + intros r' Hin Hrange. apply inRange_iff in Hrange.
      apply in_ranks in Hin.
      destruct Hin as [-> | [-> | [-> | [-> | ->]]]];
        cbn [minPoints maxPoints BRONZE SILVER GOLD PLATINUM DIAMOND]
          in Hrange;
        leb_cases; first [reflexivity | lia].
  - intros r Hin. apply in_ranks in Hin.
    destruct Hin as [-> | [-> | [-> | [-> | ->]]]]; reflexivity.
  - intros Htop. apply inRange_iff.
    cbn [minPoints maxPoints DIAMOND] in *. lia.
Qed.

Lemma tier_ranges_partition_witness :
  0 <= 100
  /\ ((exists r,
          In r ranks /\ inRange 100 r = true /\ rank (getUserRank 100) = r
          /\ forall r', In r' ranks -> inRange 100 r' = true -> r' = r)
      /\ (forall r, In r ranks -> rank (getUserRank (minPoints r)) = r)
      /\ (maxPoints BRONZE = Fin (minPoints SILVER - 1)
          /\ maxPoints SILVER = Fin (minPoints GOLD - 1)
          /\ maxPoints GOLD = Fin (minPoints PLATINUM - 1)
          /\ maxPoints PLATINUM = Fin (minPoints DIAMOND - 1)
          /\ maxPoints DIAMOND = Inf)
      /\ (minPoints DIAMOND <= 100 -> inRange 100 DIAMOND = true)).
Proof.
  split; [lia | apply (tier_ranges_partition 100); lia].
Defined.

(** The two orders of multiplying by 100 give the same rational. *)
Lemma progress_formula_eq (a b : Q) :
  ~ b == 0 -> (a / b * 100 == 100 * a / b)%Q.
Proof. intros Hb. field. exact Hb. Qed.

Lemma clamp_bounds (x : Q) : (0 <= Qmin 100 (Qmax 0 x) <= 100)%Q.
Proof.
  split.
  - apply Q.min_glb; [discriminate | apply Q.le_max_l].
  - apply Q.le_min_l.
Qed.

(** Progress and points-to-next inside a tier with a finite upper
    bound. *)
Lemma progress_in_finite_tier (p : Z) (r : Rank) (m : Z) :
  findInRange p ranks = Some r -> maxPoints r = Fin m ->
  minPoints r < m ->
  (getProgressToNextRank p == specProgress p r m)%Q
  /\ getPointsToNextRank p = Fin (m + 1 - p).
Proof.
  intros Hfind Hmax Hlt.
  unfold getProgressToNextRank, getPointsToNextRank, specProgress.
  rewrite Hfind, Hmax. cbn [isInfinity num_succ_sub]. split; [| reflexivity].
  apply Q.min_compat; [reflexivity |].
  apply Q.max_compat; [reflexivity |].
  apply progress_formula_eq.
  intros Heq. unfold Qeq in Heq. cbn in Heq. lia.
Qed.

(** C5, as amended: for a non-negative total in a tier with a finite
    [maxPoints], [progressToNext] is
    [100 * (points - minPoints) / (maxPoints - minPoints)] clamped to
    [0, 100], and [pointsToNext] is [maxPoints + 1 - points], the
    distance to the next tier's threshold; in the top tier they are 100
    and 0. *)
Theorem progress_and_points_to_next (p : Z) :
  0 <= p ->
  let ur := getUserRank p in
  inRange p (rank ur) = true
  /\ (0 <= progressToNext ur <= 100)%Q
  /\ match maxPoints (rank ur) with
     | Fin m =>
         (progressToNext ur == specProgress p (rank ur) m)%Q
         /\ pointsToNext ur = Fin (m + 1 - p)
     | Inf =>
         (progressToNext ur == 100)%Q /\ pointsToNext ur = Fin 0
     end.
Proof.
  intros Hp ur. subst ur.
  assert (Hfields :
            progressToNext (getUserRank p) = getProgressToNextRank p
            /\ pointsToNext (getUserRank p) = getPointsToNextRank p)
    by (split; reflexivity).
  destruct Hfields as [-> ->]. rewrite getUserRank_rank.
  leb_cases.
  - (* Diamond *)
    unfold getProgressToNextRank, getPointsToNextRank.
    rewrite findInRange_diamond by lia.
    cbn [maxPoints DIAMOND isInfinity].
    repeat split; try reflexivity; try discriminate.
    apply inRange_iff. cbn [minPoints maxPoints DIAMOND]. lia.
  - (* Platinum *)
    cbn [maxPoints PLATINUM]. split; [| split].
    + apply inRange_iff. cbn [minPoints maxPoints PLATINUM]. lia.
    + unfold getProgressToNextRank. rewrite findInRange_platinum by lia.
      cbn [maxPoints PLATINUM]. apply clamp_bounds.
    + apply progress_in_finite_tier;
        [apply findInRange_platinum; lia | reflexivity | reflexivity].
  - (* Gold *)
    cbn [maxPoints GOLD]. split; [| split].
    + apply inRange_iff. cbn [minPoints maxPoints GOLD]. lia.
    + unfold getProgressToNextRank. rewrite findInRange_gold by lia.
      cbn [maxPoints GOLD]. apply clamp_bounds.
    + apply progress_in_finite_tier;
        [apply findInRange_gold; lia | reflexivity | reflexivity].
  - (* Silver *)
    cbn [maxPoints SILVER]. split; [| split].
    + apply inRange_iff. cbn [minPoints maxPoints SILVER]. lia.
    + unfold getProgressToNextRank. rewrite findInRange_silver by lia.
      cbn [maxPoints SILVER]. apply clamp_bounds.
    + apply progress_in_finite_tier;
        [apply findInRange_silver; lia | reflexivity | reflexivity].
  - (* Bronze *)
    cbn [maxPoints BRONZE]. split; [| split].
    + apply inRange_iff. cbn [minPoints maxPoints BRONZE]. lia.
    + unfold getProgressToNextRank. rewrite findInRange_bronze by lia.
      cbn [maxPoints BRONZE]. apply clamp_bounds.
    + apply progress_in_finite_tier;
        [apply findInRange_bronze; lia | reflexivity | reflexivity].
Qed.

Lemma progress_and_points_to_next_witness :
  0 <= 150
  /\ (let ur := getUserRank 150 in
      inRange 150 (rank ur) = true
      /\ (0 <= progressToNext ur <= 100)%Q
      /\ match maxPoints (rank ur) with
         | Fin m =>
             (progressToNext ur == specProgress 150 (rank ur) m)%Q
             /\ pointsToNext ur = Fin (m + 1 - 150)
         | Inf =>
             (progressToNext ur == 100)%Q /\ pointsToNext ur = Fin 0
         end).
Proof.
  split; [lia | apply (progress_and_points_to_next 150); lia].
Defined.

(** C5, as stated, fails: at 0 points the tier is Bronze with
    [maxPoints = 99]; the claim gives [pointsToNext = 99 - 0], the code
    returns [99 + 1 - 0 = 100]. *)
Lemma points_to_next_is_not_max_minus_points :
  0 <= 0
  /\ maxPoints (rank (getUserRank 0)) = Fin 99
  /\ pointsToNext (getUserRank 0) = Fin 100
  /\ pointsToNext (getUserRank 0) <> specPointsToNext 0 (rank (getUserRank 0)).
Proof.
  repeat split; try reflexivity; try lia. vm_compute. discriminate.
Qed.

(** C6, as amended: the worked example scores 323 points, and 323
    points resolve to Gold, the third tier, whose range is 300 to 599. *)
Theorem scenario_scores_323_and_is_gold :
  calculateRankingPoints scenarioStats = 323
  /\ rank (getUserRank (calculateRankingPoints scenarioStats)) = GOLD
  /\ level GOLD = 3
  /\ inRange 323 GOLD = true.
Proof. repeat split. Qed.

(** C6, as stated, fails: the tier of the worked example is not
    Silver, the second tier, whose range ends at 299. *)
Lemma scenario_is_not_silver :
  calculateRankingPoints scenarioStats = 323
  /\ level SILVER = 2
  /\ inRange 323 SILVER = false
  /\ rank (getUserRank (calculateRankingPoints scenarioStats)) <> SILVER.
Proof.
  repeat split. vm_compute. discriminate.
Qed.

(** C7, as amended: an empty history aggregates to the all-zero stats,
    which score 0 points; 0 points resolve to Bronze with a progress of
    exactly 0 percent and [pointsToNext] equal to Bronze's
    [maxPoints + 1]. *)
Theorem empty_history_rank (tz now : Z) :
  fst (calculateUserStats tz now []) = zeroStats
  /\ (forall f, getField f zeroStats = 0)
  /\ calculateRankingPoints (fst (calculateUserStats tz now [])) = 0
  /\ rank (getUserRank 0) = BRONZE
  /\ (progressToNext (getUserRank 0) == 0)%Q
  /\ pointsToNext (getUserRank 0) = num_succ_sub (maxPoints BRONZE) 0
  /\ pointsToNext (getUserRank 0) = Fin 100.
Proof.
  repeat split. intros f. destruct f; reflexivity.
Qed.

(** C7, as stated, fails: the progress of a user with 0 points is not
    strictly greater than 0. *)
Lemma empty_history_progress_not_positive :
  calculateRankingPoints (fst (calculateUserStats 0 0 [])) = 0
  /\ ~ (0 < progressToNext (getUserRank 0))%Q.
Proof.
  split; [reflexivity |]. vm_compute. discriminate.
Qed.

(** C10: a negative point total matches no tier in either loop, and
    [getUserRank] falls back to the Bronze record, with progress 0 and
    [pointsToNext = Bronze.maxPoints + 1 - points]. *)
Theorem negative_points_fall_back_to_bronze (p : Z) :
  p < 0 ->
  rank (getUserRank p) = BRONZE
  /\ currentPoints (getUserRank p) = p
  /\ progressToNext (getUserRank p) = 0%Q
  /\ pointsToNext (getUserRank p) = num_succ_sub (maxPoints BRONZE) p
  /\ pointsToNext (getUserRank p) = Fin (99 + 1 - p).
Proof.
  intros Hp.
  assert (Hfind : findInRange p ranks = None)
    by (apply findInRange_negative; exact Hp).
  repeat split.
  - rewrite getUserRank_rank. leb_cases. reflexivity.
  - unfold getUserRank, getProgressToNextRank. cbn [progressToNext].
    rewrite Hfind. reflexivity.
  - unfold getUserRank, getPointsToNextRank. cbn [pointsToNext].
    rewrite Hfind. reflexivity.
  - unfold getUserRank, getPointsToNextRank. cbn [pointsToNext].
    rewrite Hfind. reflexivity.
Qed.

Lemma negative_points_fall_back_to_bronze_witness :
  -5 < 0
  /\ rank (getUserRank (-5)) = BRONZE
  /\ currentPoints (getUserRank (-5)) = -5
  /\ progressToNext (getUserRank (-5)) = 0%Q
  /\ pointsToNext (getUserRank (-5)) = num_succ_sub (maxPoints BRONZE) (-5)
  /\ pointsToNext (getUserRank (-5)) = Fin (99 + 1 - -5).
Proof.
  split; [lia | apply (negative_points_fall_back_to_bronze (-5)); lia].
Defined.

(** ** In-place sorting *)

Section SortFacts.

Context {A : Type}.
Variable compareFn : A -> A -> Z.

Lemma insertSorted_perm (x : A) (l : list A) :
  Permutation (x :: l) (insertSorted compareFn x l).
Proof.
  induction l as [| y rest IH]; cbn [insertSorted].
  - apply Permutation_refl.
  - destruct (compareFn x y <=? 0).
    + apply Permutation_refl.
    + apply perm_trans with (y :: x :: rest).
      * apply perm_swap.
      * apply perm_skip, IH.
Qed.

(** Sorting keeps the elements of the array. *)
Lemma arraySort_perm (l : list A) : Permutation l (arraySort compareFn l).
Proof.
  induction l as [| x rest IH]; cbn [arraySort fold_right].
  - apply perm_nil.
  - apply perm_trans with (x :: arraySort compareFn rest).
    + apply perm_skip, IH.
    + apply insertSorted_perm.
Qed.

(** The comparator orders any two elements one way or the other. *)
Hypothesis compareFn_total :
  forall x y, compareFn x y <= 0 \/ compareFn y x <= 0.

Lemma insertSorted_hdrel (a x : A) (l : list A) :
  compareFn a x <= 0 ->
  HdRel (fun u v => compareFn u v <= 0) a l ->
  HdRel (fun u v => compareFn u v <= 0) a (insertSorted compareFn x l).
Proof.
  intros Hax Hhd. destruct l as [| y rest]; cbn [insertSorted].
  - constructor. exact Hax.
  - destruct (compareFn x y <=? 0).
    + constructor. exact Hax.
    + constructor. inversion Hhd; assumption.
Qed.

Lemma insertSorted_sorted (x : A) (l : list A) :
  Sorted (fun u v => compareFn u v <= 0) l ->
  Sorted (fun u v => compareFn u v <= 0) (insertSorted compareFn x l).
Proof.
  induction 1 as [| y rest Hsorted IH Hhd]; cbn [insertSorted].
  - repeat constructor.
  - destruct (Z.leb_spec (compareFn x y) 0) as [Hle | Hgt].
    + constructor; [constructor; assumption | constructor; exact Hle].
    + constructor; [exact IH |].
      apply insertSorted_hdrel; [| exact Hhd].
      destruct (compareFn_total x y); lia.
Qed.

(** After the sort no element is followed by one the comparator puts
    strictly before it. *)
Lemma arraySort_sorted (l : list A) :
  Sorted (fun u v => compareFn u v <= 0) (arraySort compareFn l).
Proof.
  induction l as [| x rest IH]; cbn [arraySort fold_right].
  - constructor.
  - apply insertSorted_sorted, IH.
Qed.

End SortFacts.

(** ** Streaks *)

(** [currentStreak] counts the dates the walk records. *)
Lemma currentStreakLoop_counts (workoutDates : list Z) :
  forall checkDate n,
    currentStreakLoop workoutDates checkDate n
    = n + Z.of_nat (List.length (countedDates workoutDates checkDate)).
Proof.
  induction workoutDates as [| d rest IH]; intros checkDate n;
    cbn [currentStreakLoop countedDates].
  - cbn. lia.
  - destruct ((floorDiv (checkDate - d) MS_PER_DAY =? 0)
              || (floorDiv (checkDate - d) MS_PER_DAY =? 1)).
    + rewrite IH. cbn [List.length]. lia.
    + cbn. lia.
Qed.

(** The first counted date is the cursor's day or the day before. *)
Lemma countedDates_head (workoutDates : list Z) (checkDate d : Z)
    (tl : list Z) :
  countedDates workoutDates checkDate = d :: tl ->
  0 <= checkDate - d < 2 * MS_PER_DAY.
Proof.
  destruct workoutDates as [| w rest]; cbn [countedDates]; [discriminate |].
  rewrite floorDiv_Zdiv.
  destruct (Z.eqb_spec ((checkDate - w) / MS_PER_DAY) 0) as [H0 | _];
    [| destruct (Z.eqb_spec ((checkDate - w) / MS_PER_DAY) 1) as [H1 | _]];
    cbn [orb]; try discriminate;
    intros [= <- _];
    pose proof (Z.div_mod (checkDate - w) MS_PER_DAY ltac:(discriminate));
    pose proof (Z.mod_pos_bound (checkDate - w) MS_PER_DAY ltac:(reflexivity));
    lia.
Qed.

(** What the walk accepts: every counted date lies at least one day and
    less than three days before the date counted just before it.  Two
    local midnights counted in a row are therefore one or two days
    apart. *)
Lemma countedDates_gaps (workoutDates : list Z) :
  forall checkDate,
    Forall (fun gap => MS_PER_DAY <= gap < 3 * MS_PER_DAY)
      (adjacentGaps (countedDates workoutDates checkDate)).
Proof.
  induction workoutDates as [| w rest IH]; intros checkDate;
    cbn [countedDates]; [constructor |].
  destruct ((floorDiv (checkDate - w) MS_PER_DAY =? 0)
            || (floorDiv (checkDate - w) MS_PER_DAY =? 1));
    [| constructor].
  specialize (IH (setDatePrev w)).
  destruct (countedDates rest (setDatePrev w)) as [| d2 tl] eqn:Hrest;
    cbn [adjacentGaps]; [constructor |].
  constructor; [| exact IH].
  apply countedDates_head in Hrest. unfold setDatePrev in Hrest. lia.
Qed.

(** Every date of the walk's input is a local midnight. *)
Lemma setHoursZero_midnight (tz t : Z) :
  (setHoursZero tz t + tz) mod MS_PER_DAY = 0.
Proof.
  unfold setHoursZero.
  replace (t - (t + tz) mod MS_PER_DAY + tz)
    with (t + tz - (t + tz) mod MS_PER_DAY) by lia.
  rewrite Zminus_mod, Z.mod_mod, Z.sub_diag by discriminate. reflexivity.
Qed.

Lemma newSet_incl {A : Type} (eqb : A -> A -> bool) (l : list A) :
  forall acc x, In x (fold_left (setAdd eqb) l acc) -> In x acc \/ In x l.
Proof.
  induction l as [| a rest IH]; intros acc x Hin; cbn [fold_left] in Hin.
  - left. exact Hin.
  - apply IH in Hin. destruct Hin as [Hacc | Hrest].
    + unfold setAdd in Hacc. destruct (existsb (eqb a) acc).
      * left. exact Hacc.
      * apply in_app_or in Hacc. destruct Hacc as [Hacc | [<- | []]].
        -- left. exact Hacc.
        -- right. left. reflexivity.
    + right. right. exact Hrest.
Qed.

Lemma workoutDatesOf_midnights (tz : Z) (workouts : list Workout) :
  forall d, In d (workoutDatesOf tz workouts) -> (d + tz) mod MS_PER_DAY = 0.
Proof.
  intros d Hin. unfold workoutDatesOf in Hin.
  apply (Permutation_in d (Permutation_sym (arraySort_perm _ _))) in Hin.
  apply newSet_incl in Hin. destruct Hin as [[] | Hin].
  apply in_map_iff in Hin. destruct Hin as [w [<- _]].
  apply setHoursZero_midnight.
Qed.

Lemma countedDates_incl (workoutDates : list Z) :
  forall checkDate d,
    In d (countedDates workoutDates checkDate) -> In d workoutDates.
Proof.
  induction workoutDates as [| w rest IH]; intros checkDate d;
    cbn [countedDates]; [intros [] |].
  destruct ((floorDiv (checkDate - w) MS_PER_DAY =? 0)
            || (floorDiv (checkDate - w) MS_PER_DAY =? 1)); [| intros []].
  intros [<- | Hin]; [left; reflexivity | right; eapply IH; exact Hin].
Qed.

Lemma adjacentGaps_of_midnights (tz : Z) (dates : list Z) :
  (forall d, In d dates -> (d + tz) mod MS_PER_DAY = 0) ->
  Forall (fun gap => gap mod MS_PER_DAY = 0) (adjacentGaps dates).
Proof.
  induction dates as [| d1 rest IH]; intros Hmid; [constructor |].
  destruct rest as [| d2 tl]; [constructor |].
  cbn [adjacentGaps]. constructor.
  - replace (d1 - d2) with ((d1 + tz) - (d2 + tz)) by lia.
    rewrite Zminus_mod, (Hmid d1), (Hmid d2) by (cbn [In]; auto).
    reflexivity.
  - apply IH. intros d Hin. apply Hmid. right. exact Hin.
Qed.

(** What [calculateStreaks] counts, in calendar days: two days counted
    one after the other are one day or two days apart. *)
Lemma counted_days_one_or_two_apart (tz now : Z) (workouts : list Workout) :
  Forall (fun gap => gap = MS_PER_DAY \/ gap = 2 * MS_PER_DAY)
    (adjacentGaps
       (countedDates (workoutDatesOf tz workouts) (setHoursZero tz now))).
Proof.
  apply Forall_forall. intros gap Hin.
  pose proof (countedDates_gaps (workoutDatesOf tz workouts)
                (setHoursZero tz now)) as Hbounds.
  assert (Hmult :
            Forall (fun gap => gap mod MS_PER_DAY = 0)
              (adjacentGaps
                 (countedDates (workoutDatesOf tz workouts)
                    (setHoursZero tz now)))).
  { apply (adjacentGaps_of_midnights tz). intros d Hd.
    apply countedDates_incl in Hd.
    apply (workoutDatesOf_midnights tz workouts). exact Hd. }
  rewrite Forall_forall in Hbounds, Hmult.
  specialize (Hbounds gap Hin). specialize (Hmult gap Hin).
  pose proof (Z.div_mod gap MS_PER_DAY ltac:(discriminate)) as Hdiv.
  rewrite Hmult in Hdiv. unfold MS_PER_DAY in *. lia.
Qed.

(** An empty history has no streaks, and the array is left as it is. *)
Lemma calculateStreaks_empty (tz now : Z) :
  calculateStreaks tz now []
  = ({| streak_current := 0; streak_longest := 0 |}, []).
Proof. reflexivity. Qed.

(** C1 at a history with a skipped day: with workouts on days 10 and 8
    and the call made on day 10, the walk counts both days, while the
    longest run of consecutive days has length 1. *)
Theorem skipped_day_current_exceeds_longest :
  fst (calculateStreaks 0 noonOfDay10 skippedDayHistory)
  = {| streak_current := 2; streak_longest := 1 |}
  /\ currentStreak (fst (calculateUserStats 0 noonOfDay10 skippedDayHistory))
     = Some 2
  /\ longestStreak (fst (calculateUserStats 0 noonOfDay10 skippedDayHistory))
     = Some 1
  /\ streak_longest (fst (calculateStreaks 0 noonOfDay10 skippedDayHistory))
     < streak_current (fst (calculateStreaks 0 noonOfDay10 skippedDayHistory)).
Proof. repeat split. Qed.

(** C2 at the same history: the dates counted into [currentStreak] are
    the midnights of day 10 and day 8, two calendar days apart. *)
Theorem skipped_day_is_counted :
  workoutDatesOf 0 skippedDayHistory = [10 * MS_PER_DAY; 8 * MS_PER_DAY]
  /\ countedDates (workoutDatesOf 0 skippedDayHistory)
       (setHoursZero 0 noonOfDay10)
     = [10 * MS_PER_DAY; 8 * MS_PER_DAY]
  /\ streak_current (fst (calculateStreaks 0 noonOfDay10 skippedDayHistory))
     = 2
  /\ adjacentGaps
       (countedDates (workoutDatesOf 0 skippedDayHistory)
          (setHoursZero 0 noonOfDay10))
     = [2 * MS_PER_DAY].
Proof. repeat split. Qed.

(** ** The caller's array *)

(** [calculateStreaks] leaves the array sorted latest first. *)
Lemma calculateStreaks_array (tz now : Z) (workouts : list Workout) :
  snd (calculateStreaks tz now workouts)
  = arraySort (fun a b => workout_date b - workout_date a) workouts.
Proof.
  destruct workouts as [| w0 rest]; [reflexivity |].
  unfold calculateStreaks.
  destruct (workoutDatesOf tz
              (arraySort (fun a b => workout_date b - workout_date a)
                 (w0 :: rest))) as [| first others].
  - reflexivity.
  - destruct (longestStreakLoop first others 0 1). reflexivity.
Qed.

(** [calculateUserStats] sorts the array oldest first, then
    [calculateStreaks] sorts the same array latest first. *)
Lemma calculateUserStats_array (tz now : Z) (workouts : list Workout) :
  snd (calculateUserStats tz now workouts)
  = arraySort (fun a b => workout_date b - workout_date a)
      (arraySort (fun a b => workout_date a - workout_date b) workouts).
Proof.
  destruct workouts as [| w0 rest]; [reflexivity |].
  unfold calculateUserStats.
  rewrite <- (calculateStreaks_array tz now).
  destruct (calculateStreaks tz now
              (arraySort (fun a b => workout_date a - workout_date b)
                 (w0 :: rest))) as [streaks workouts'].
  reflexivity.
Qed.

(** The call neither adds nor drops a workout: the array holds the same
    elements afterwards. *)
Lemma calculateUserStats_keeps_elements (tz now : Z)
    (workouts : list Workout) :
  Permutation workouts (snd (calculateUserStats tz now workouts)).
Proof.
  rewrite calculateUserStats_array.
  eapply perm_trans; apply arraySort_perm.
Qed.

(** On return the array is ordered by date, latest first. *)
Lemma calculateUserStats_leaves_latest_first (tz now : Z)
    (workouts : list Workout) :
  Sorted (fun a b => workout_date b <= workout_date a)
    (snd (calculateUserStats tz now workouts)).
Proof.
  rewrite calculateUserStats_array.
  eapply Sorted_ind with
    (P := fun l => Sorted (fun a b => workout_date b <= workout_date a) l);
    [constructor | | apply arraySort_sorted; intros x y; lia].
  intros a l _ IH Hhd. constructor; [exact IH |].
  destruct Hhd; constructor. lia.
Qed.

(** C9 at a history handed over oldest first: after the call the
    caller's array holds the two workouts in the opposite order, and
    [calculateStreaks] alone reorders it the same way. *)
Theorem stats_call_reorders_array :
  snd (calculateUserStats 0 noonOfDay10 oldestFirstHistory)
  = [workoutOnDay 2; workoutOnDay 1]
  /\ snd (calculateStreaks 0 noonOfDay10 oldestFirstHistory)
     = [workoutOnDay 2; workoutOnDay 1]
  /\ snd (calculateUserStats 0 noonOfDay10 oldestFirstHistory)
     <> oldestFirstHistory.
Proof.
  repeat split. vm_compute. discriminate.
Qed.

(** * Further properties of the ranking module *)

(** ** Moving up the tiers *)

Ltac rank_fields :=
  cbn [level minPoints maxPoints name color gradient icon
       isInfinity num_succ_sub
       BRONZE SILVER GOLD PLATINUM DIAMOND].

Lemma getUserRank_level_le (p q : Z) :
  p <= q ->
  level (rank (getUserRank p)) <= level (rank (getUserRank q)).
Proof.
  intros Hpq. rewrite !getUserRank_rank.
  leb_cases; rank_fields; lia.
Qed.

(** X1: more points never give a lower tier. *)
Theorem rank_level_monotone (p q : Z) :
  p <= q ->
  level (rank (getUserRank p)) <= level (rank (getUserRank q)).
Proof. apply getUserRank_level_le. Qed.

Lemma rank_level_monotone_witness :
  250 <= 640
  /\ level (rank (getUserRank 250)) <= level (rank (getUserRank 640)).
Proof.
  split; [lia | apply (rank_level_monotone 250 640); lia].
Defined.

Lemma getNextRank_cases (p : Z) :
  getNextRank p =
    if (0 <=? p) && (p <=? 99) then Some SILVER
    else if (100 <=? p) && (p <=? 299) then Some GOLD
    else if (300 <=? p) && (p <=? 599) then Some PLATINUM
    else if (600 <=? p) && (p <=? 999) then Some DIAMOND
    else None.
Proof. reflexivity. Qed.

(** X2: below the top tier, [pointsToNext] is positive and is exactly
    what is missing to the tier [getNextRank] names: adding it lands on
    that tier's [minPoints], one point less stays in the current tier,
    and the next tier is one level up. *)
Theorem points_to_next_reach_next_rank (p : Z) :
  0 <= p < 1000 ->
  exists k next,
    pointsToNext (getUserRank p) = Fin k
    /\ 0 < k
    /\ getNextRank p = Some next
    /\ p + k = minPoints next
    /\ rank (getUserRank (p + k)) = next
    /\ rank (getUserRank (p + k - 1)) = rank (getUserRank p)
    /\ level next = level (rank (getUserRank p)) + 1.
Proof.
  intros Hp.
  assert (Hcases : 0 <= p <= 99 \/ 100 <= p <= 299 \/ 300 <= p <= 599
                   \/ 600 <= p <= 999) by lia.
  destruct Hcases as [H | [H | [H | H]]].
  - exists (100 - p), SILVER.
    replace (p + (100 - p)) with 100 by lia.
    replace (100 - 1) with 99 by lia.
    rewrite getNextRank_cases, !getUserRank_rank. cbn [pointsToNext getUserRank].
    unfold getPointsToNextRank. rewrite findInRange_bronze by lia.
    leb_cases. rank_fields. repeat split; try lia; f_equal; lia.
  - exists (300 - p), GOLD.
    replace (p + (300 - p)) with 300 by lia.
    replace (300 - 1) with 299 by lia.
    rewrite getNextRank_cases, !getUserRank_rank. cbn [pointsToNext getUserRank].
    unfold getPointsToNextRank. rewrite findInRange_silver by lia.
    leb_cases. rank_fields. repeat split; try lia; f_equal; lia.
  - exists (600 - p), PLATINUM.
    replace (p + (600 - p)) with 600 by lia.
    replace (600 - 1) with 599 by lia.
    rewrite getNextRank_cases, !getUserRank_rank. cbn [pointsToNext getUserRank].
    unfold getPointsToNextRank. rewrite findInRange_gold by lia.
    leb_cases. rank_fields. repeat split; try lia; f_equal; lia.
  - exists (1000 - p), DIAMOND.
    replace (p + (1000 - p)) with 1000 by lia.
    replace (1000 - 1) with 999 by lia.
    rewrite getNextRank_cases, !getUserRank_rank. cbn [pointsToNext getUserRank].
    unfold getPointsToNextRank. rewrite findInRange_platinum by lia.
    leb_cases. rank_fields. repeat split; try lia; f_equal; lia.
Qed.

Lemma points_to_next_reach_next_rank_witness :
  0 <= 250 < 1000
  /\ exists k next,
       pointsToNext (getUserRank 250) = Fin k
       /\ 0 < k
       /\ getNextRank 250 = Some next
       /\ 250 + k = minPoints next
       /\ rank (getUserRank (250 + k)) = next
       /\ rank (getUserRank (250 + k - 1)) = rank (getUserRank 250)
       /\ level next = level (rank (getUserRank 250)) + 1.
Proof.
  split; [lia | apply (points_to_next_reach_next_rank 250); lia].
Defined.

Lemma Fin_eq_iff (a b : Z) : Fin a = Fin b <-> a = b.
Proof. split; [intros [= He]; exact He | intros ->; reflexivity]. Qed.

(** X3: [getNextRank] answers [null] exactly for totals of the top tier
    and for negative totals; there [pointsToNext] is 0 only in the top
    tier. *)
Theorem next_rank_null_iff (p : Z) :
  (getNextRank p = None <-> p < 0 \/ 1000 <= p)
  /\ (pointsToNext (getUserRank p) = Fin 0 <-> 1000 <= p).
Proof.
  split.
  - rewrite getNextRank_cases. split.
    + intros Hnone. revert Hnone. leb_cases; intros Hnone;
        first [discriminate Hnone | lia].
    + intros [H | H]; leb_cases; reflexivity.
  - cbn [pointsToNext getUserRank]. unfold getPointsToNextRank.
    destruct (Z.lt_ge_cases p 0) as [Hneg | Hpos].
    + rewrite findInRange_negative by lia. rank_fields.
      rewrite Fin_eq_iff; lia.
    + assert (Hc : p <= 99 \/ 100 <= p <= 299 \/ 300 <= p <= 599
                   \/ 600 <= p <= 999 \/ 1000 <= p) by lia.
      destruct Hc as [H | [H | [H | [H | H]]]].
      * rewrite findInRange_bronze by lia. rank_fields.
        rewrite Fin_eq_iff; lia.
      * rewrite findInRange_silver by lia. rank_fields.
        rewrite Fin_eq_iff; lia.
      * rewrite findInRange_gold by lia. rank_fields.
        rewrite Fin_eq_iff; lia.
      * rewrite findInRange_platinum by lia. rank_fields.
        rewrite Fin_eq_iff; lia.
      * rewrite findInRange_diamond by lia. rank_fields.
        split; [intros _; lia | reflexivity].
Qed.

(** ** Progress inside a tier *)

Lemma scaled_fraction (a : Z) (dp : positive) :
  (inject_Z a / inject_Z (Z.pos dp) * 100 == (100 * a) # dp)%Q.
Proof.
  unfold Qeq, Qdiv, Qmult, Qinv, inject_Z. cbn [Qnum Qden]. lia.
Qed.

(** Inside a tier the clamp of [getProgressToNextRank] leaves the
    percentage as it is. *)
Lemma progress_exact (p : Z) (r : Rank) (m : Z) (dp : positive) :
  findInRange p ranks = Some r -> maxPoints r = Fin m ->
  m - minPoints r = Z.pos dp -> minPoints r <= p <= m ->
  (getProgressToNextRank p == (100 * (p - minPoints r)) # dp)%Q.
Proof.
  intros Hfind Hmax Hwidth Hp. unfold getProgressToNextRank.
  rewrite Hfind, Hmax, Hwidth.
  assert (Hfrac := scaled_fraction (p - minPoints r) dp).
  assert (Hlo : (0 <= (100 * (p - minPoints r)) # dp)%Q)
    by (unfold Qle; cbn [Qnum Qden]; lia).
  assert (Hhi : ((100 * (p - minPoints r)) # dp <= 100)%Q)
    by (unfold Qle; cbn [Qnum Qden]; lia).
  transitivity (Qmin 100 (Qmax 0 ((100 * (p - minPoints r)) # dp))).
  - apply Q.min_compat; [reflexivity |].
    apply Q.max_compat; [reflexivity | exact Hfrac].
  - rewrite (Q.max_r _ _ Hlo). apply Q.min_r. exact Hhi.
Qed.

(** Two totals below the top tier that resolve to the same tier lie in
    the same band of the table. *)
Lemma same_tier_band (p q : Z) :
  0 <= p -> p <= q -> q < 1000 ->
  rank (getUserRank p) = rank (getUserRank q) ->
  (0 <= p /\ q <= 99) \/ (100 <= p /\ q <= 299)
  \/ (300 <= p /\ q <= 599) \/ (600 <= p /\ q <= 999).
Proof.
  intros Hp Hpq Hq. rewrite !getUserRank_rank.
  leb_cases; intros Heq; try lia;
    apply (f_equal minPoints) in Heq; rank_fields; cbn in Heq; lia.
Qed.

(** X4: between two totals of the same tier, below the top tier, the
    one with more points has strictly more progress. *)
Theorem progress_strictly_increasing_in_tier (p q : Z) :
  0 <= p -> p < q -> q < 1000 ->
  rank (getUserRank p) = rank (getUserRank q) ->
  (progressToNext (getUserRank p) < progressToNext (getUserRank q))%Q.
Proof.
  intros Hp Hpq Hq Hsame. cbn [progressToNext getUserRank].
  destruct (same_tier_band p q Hp ltac:(lia) Hq Hsame)
    as [H | [H | [H | H]]].
  - rewrite (progress_exact p BRONZE 99 99), (progress_exact q BRONZE 99 99);
      try reflexivity; try (apply findInRange_bronze); rank_fields; try lia.
    unfold Qlt. cbn [Qnum Qden]. lia.
  - rewrite (progress_exact p SILVER 299 199),
      (progress_exact q SILVER 299 199);
      try reflexivity; try (apply findInRange_silver); rank_fields; try lia.
    unfold Qlt. cbn [Qnum Qden]. lia.
  - rewrite (progress_exact p GOLD 599 299), (progress_exact q GOLD 599 299);
      try reflexivity; try (apply findInRange_gold); rank_fields; try lia.
    unfold Qlt. cbn [Qnum Qden]. lia.
  - rewrite (progress_exact p PLATINUM 999 399),
      (progress_exact q PLATINUM 999 399);
      try reflexivity; try (apply findInRange_platinum); rank_fields; try lia.
    unfold Qlt. cbn [Qnum Qden]. lia.
Qed.

Lemma progress_strictly_increasing_in_tier_witness :
  0 <= 120 /\ 120 < 250 /\ 250 < 1000
  /\ rank (getUserRank 120) = rank (getUserRank 250)
  /\ (progressToNext (getUserRank 120) < progressToNext (getUserRank 250))%Q.
Proof.
  split; [lia |]. split; [lia |]. split; [lia |]. split; [reflexivity |].
  apply (progress_strictly_increasing_in_tier 120 250);
    [lia | lia | lia | reflexivity].
Defined.

(** X5: in every tier with a finite upper bound the progress is 0 at
    the tier's [minPoints] and 100 at its [maxPoints], the point just
    before the next tier. *)
Theorem progress_at_tier_ends (r : Rank) (m : Z) :
  In r ranks -> maxPoints r = Fin m ->
  (getProgressToNextRank (minPoints r) == 0)%Q
  /\ (getProgressToNextRank m == 100)%Q
  /\ rank (getUserRank m) = r
  /\ rank (getUserRank (m + 1)) <> r.
Proof.
  intros Hin Hmax. apply in_ranks in Hin.
  destruct Hin as [-> | [-> | [-> | [-> | ->]]]];
    cbn [maxPoints BRONZE SILVER GOLD PLATINUM DIAMOND] in Hmax;
    try discriminate Hmax; injection Hmax as <-;
    (split; [vm_compute; reflexivity |]);
    (split; [vm_compute; reflexivity |]);
    (split; [reflexivity |]);
    intros Heq; apply (f_equal minPoints) in Heq; vm_compute in Heq;
    discriminate Heq.
Qed.

Lemma progress_at_tier_ends_witness :
  In SILVER ranks /\ maxPoints SILVER = Fin 299
  /\ (getProgressToNextRank (minPoints SILVER) == 0)%Q
  /\ (getProgressToNextRank 299 == 100)%Q
  /\ rank (getUserRank 299) = SILVER
  /\ rank (getUserRank (299 + 1)) <> SILVER.
Proof.
  assert (Hin : In SILVER ranks) by (cbn; auto).
  split; [exact Hin |]. split; [reflexivity |].
  apply (progress_at_tier_ends SILVER 299 Hin). reflexivity.
Defined.

(** ** Colours by tier name *)

(** X6: [getRankColor] and [getRankGradient] find a tier by its name in
    any letter case: a name that upper-cases like the name of a tier of
    the table gets that tier's colour and gradient. *)
Theorem rank_color_by_name_any_case (r : Rank) (rankName : string) :
  In r ranks ->
  toUpperCase rankName = toUpperCase (name r) ->
  getRankColor rankName = color r
  /\ getRankGradient rankName = gradient r.
Proof.
  intros Hin Hupper. unfold getRankColor, getRankGradient. rewrite Hupper.
  apply in_ranks in Hin.
  destruct Hin as [-> | [-> | [-> | [-> | ->]]]]; split; reflexivity.
Qed.

Lemma rank_color_by_name_any_case_witness :
  In GOLD ranks
  /\ toUpperCase "gOLd" = toUpperCase (name GOLD)
  /\ getRankColor "gOLd" = color GOLD
  /\ getRankGradient "gOLd" = gradient GOLD.
Proof.
  assert (Hin : In GOLD ranks) by (cbn; auto).
  split; [exact Hin |]. split; [reflexivity |].
  apply (rank_color_by_name_any_case GOLD "gOLd" Hin). reflexivity.
Defined.

Lemma in_databaseTierNames (t : string) :
  In t databaseTierNames ->
  t = "Bronze Fighter"%string \/ t = "Silver Warrior"%string
  \/ t = "Gold Gladiator"%string \/ t = "Platinum Spartan"%string
  \/ t = "Diamond Titan"%string.
Proof.
  unfold databaseTierNames, thresholds. cbn [map fst In]. intuition auto.
Qed.

(** X7: the tier names of the database are no keys of [RANKS] and no
    [name] of a tier: for each of them [getRankColor],
    [getRankGradient] (which the profile screen calls on the rank built
    from the database) and the leaderboard's colour lookup answer with
    Bronze's colour and gradient. *)
Theorem database_names_fall_back_to_bronze (t : string) :
  In t databaseTierNames ->
  getRankColor t = color BRONZE
  /\ getRankGradient t = gradient BRONZE
  /\ getRankGradient (db_name (databaseRank None (Some t))) = gradient BRONZE
  /\ getLeaderboardRankColor t = color BRONZE.
Proof.
  intros Hin. apply in_databaseTierNames in Hin.
  destruct Hin as [-> | [-> | [-> | [-> | ->]]]]; repeat split.
Qed.

Lemma database_names_fall_back_to_bronze_witness :
  In "Gold Gladiator"%string databaseTierNames
  /\ getRankColor "Gold Gladiator" = color BRONZE
  /\ getRankGradient "Gold Gladiator" = gradient BRONZE
  /\ getRankGradient (db_name (databaseRank None (Some "Gold Gladiator"%string)))
     = gradient BRONZE
  /\ getLeaderboardRankColor "Gold Gladiator" = color BRONZE.
Proof.
  assert (Hin : In "Gold Gladiator"%string databaseTierNames)
    by (cbn; auto).
  split; [exact Hin |].
  apply (database_names_fall_back_to_bronze "Gold Gladiator" Hin).
Defined.

(** X8: the leaderboard's colour lookup is exact on the [name] field:
    a string that is the name of a tier gets that tier's colour, every
    other string gets bronze. *)
Theorem leaderboard_color_by_exact_name (tier : string) :
  (exists r,
      In r ranks /\ name r = tier /\ getLeaderboardRankColor tier = color r)
  \/ ((forall r, In r ranks -> name r <> tier)
      /\ getLeaderboardRankColor tier = color BRONZE).
Proof.
  unfold getLeaderboardRankColor.
  destruct (find (fun r => (name r =? tier)%string) ranks) as [r |] eqn:Hfind.
  - left. exists r. apply find_some in Hfind. destruct Hfind as [Hin Heq].
    apply String.eqb_eq in Heq. auto.
  - right. split; [| reflexivity].
    intros r Hin Heq. apply (find_none _ _ Hfind) in Hin.
    apply String.eqb_neq in Hin. contradiction.
Qed.

(** X9: for the tier names of the database, the colour of the friend
    search screen and the colour of the avatar screen are both the
    colour of the tier the avatar screen's [rankMapping] assigns to the
    name. *)
Theorem database_name_colors_agree (t : string) :
  In t databaseTierNames ->
  exists key r,
    getProperty rankMapping t = Some key
    /\ getProperty RANKS key = Some r
    /\ friendSearchRankColor t = color r
    /\ getRankColorFromSystem t = color r
    /\ getRankIcon t = icon r
    /\ getNextRankThreshold t
       = match maxPoints r with Fin m => m + 1 | Inf => 9999 end.
Proof.
  intros Hin. apply in_databaseTierNames in Hin.
  destruct Hin as [-> | [-> | [-> | [-> | ->]]]].
  - exists "BRONZE"%string, BRONZE. repeat split.
  - exists "SILVER"%string, SILVER. repeat split.
  - exists "GOLD"%string, GOLD. repeat split.
  - exists "PLATINUM"%string, PLATINUM. repeat split.
  - exists "DIAMOND"%string, DIAMOND. repeat split.
Qed.

Lemma database_name_colors_agree_witness :
  In "Silver Warrior"%string databaseTierNames
  /\ exists key r,
       getProperty rankMapping "Silver Warrior" = Some key
       /\ getProperty RANKS key = Some r
       /\ friendSearchRankColor "Silver Warrior" = color r
       /\ getRankColorFromSystem "Silver Warrior" = color r
       /\ getRankIcon "Silver Warrior" = icon r
       /\ getNextRankThreshold "Silver Warrior"
          = match maxPoints r with Fin m => m + 1 | Inf => 9999 end.
Proof.
  assert (Hin : In "Silver Warrior"%string databaseTierNames)
    by (cbn; auto).
  split; [exact Hin |].
  apply (database_name_colors_agree "Silver Warrior" Hin).
Defined.

(** ** The rank read from the database *)

Lemma getUserRank_inRange (p : Z) :
  0 <= p -> inRange p (rank (getUserRank p)) = true.
Proof.
  intros Hp. rewrite getUserRank_rank.
  leb_cases; apply inRange_iff; rank_fields; lia.
Qed.

(** The tier a database name stands for, through [rankMapping] and
    [RANKS]. *)
Lemma mapped_rank_cases (t key : string) (r : Rank) :
  In t databaseTierNames ->
  getProperty rankMapping t = Some key ->
  getProperty RANKS key = Some r ->
  (t = "Bronze Fighter"%string /\ r = BRONZE)
  \/ (t = "Silver Warrior"%string /\ r = SILVER)
  \/ (t = "Gold Gladiator"%string /\ r = GOLD)
  \/ (t = "Platinum Spartan"%string /\ r = PLATINUM)
  \/ (t = "Diamond Titan"%string /\ r = DIAMOND).
Proof.
  intros Hin Hkey Hrank. apply in_databaseTierNames in Hin.
  destruct Hin as [-> | [-> | [-> | [-> | ->]]]];
    vm_compute in Hkey; injection Hkey as <-;
    vm_compute in Hrank; injection Hrank as <-; auto 10.
Qed.

Lemma orNumber_points (p : Z) : orNumber (Some p) 0 = p.
Proof. unfold orNumber. destruct (Z.eqb_spec p 0); congruence. Qed.

(** X10: below the top tier the two ways of building the rank agree on
    [pointsToNext]: when the tier name of the database maps to the tier
    the points resolve to, the profile screen's
    [max(0, getNextRankThreshold(tier) - points)] is the [pointsToNext]
    of [getUserRank]. *)
Theorem database_points_to_next_agree (t key : string) (p : Z) :
  In t databaseTierNames ->
  0 <= p < 1000 ->
  getProperty rankMapping t = Some key ->
  getProperty RANKS key = Some (rank (getUserRank p)) ->
  Fin (db_pointsToNext (databaseRank (Some p) (Some t)))
  = pointsToNext (getUserRank p)
  /\ db_currentPoints (databaseRank (Some p) (Some t)) = p.
Proof.
  intros Hin Hp Hkey Hrank.
  pose proof (getUserRank_inRange p ltac:(lia)) as Hrange.
  apply inRange_iff in Hrange.
  cbn [db_pointsToNext db_currentPoints databaseRank pointsToNext getUserRank].
  rewrite orNumber_points. split; [| reflexivity].
  unfold getPointsToNextRank.
  destruct (mapped_rank_cases t key _ Hin Hkey Hrank)
    as [[-> Hr] | [[-> Hr] | [[-> Hr] | [[-> Hr] | [-> Hr]]]]];
    rewrite Hr in Hrange;
    cbn [minPoints maxPoints BRONZE SILVER GOLD PLATINUM DIAMOND] in Hrange.
  - rewrite findInRange_bronze by lia. rank_fields.
    change (getNextRankThreshold (orString "Bronze Fighter" "Bronze Fighter"))
      with 100.
    f_equal. lia.
  - rewrite findInRange_silver by lia. rank_fields.
    change (getNextRankThreshold (orString "Silver Warrior" "Bronze Fighter"))
      with 300.
    f_equal. lia.
  - rewrite findInRange_gold by lia. rank_fields.
    change (getNextRankThreshold (orString "Gold Gladiator" "Bronze Fighter"))
      with 600.
    f_equal. lia.
  - rewrite findInRange_platinum by lia. rank_fields.
    change (getNextRankThreshold (orString "Platinum Spartan" "Bronze Fighter"))
      with 1000.
    f_equal. lia.
  - exfalso. lia.
Qed.

Lemma database_points_to_next_agree_witness :
  In "Gold Gladiator"%string databaseTierNames
  /\ 0 <= 450 < 1000
  /\ getProperty rankMapping "Gold Gladiator" = Some "GOLD"%string
  /\ getProperty RANKS "GOLD" = Some (rank (getUserRank 450))
  /\ Fin (db_pointsToNext
            (databaseRank (Some 450) (Some "Gold Gladiator"%string)))
     = pointsToNext (getUserRank 450)
  /\ db_currentPoints (databaseRank (Some 450) (Some "Gold Gladiator"%string))
     = 450.
Proof.
  assert (Hin : In "Gold Gladiator"%string databaseTierNames)
    by (cbn; auto).
  split; [exact Hin |]. split; [lia |].
  split; [reflexivity |]. split; [reflexivity |].
  apply (database_points_to_next_agree "Gold Gladiator" "GOLD" 450 Hin);
    [lia | reflexivity | reflexivity].
Defined.

(** X11: in the top tier the two ways differ: the database path
    measures against 9999 and shows [9999 - points] while any are
    missing, where [getUserRank] shows 0 and [getNextRank] has no tier
    to name; the progress of the database path is 1. *)
Theorem database_diamond_points_to_next (p : Z) :
  1000 <= p ->
  db_pointsToNext (databaseRank (Some p) (Some "Diamond Titan"%string))
  = Z.max 0 (9999 - p)
  /\ (0 < db_pointsToNext
            (databaseRank (Some p) (Some "Diamond Titan"%string))
      <-> p < 9999)
  /\ db_progressToNext (databaseRank (Some p) (Some "Diamond Titan"%string))
     = 1%Q
  /\ pointsToNext (getUserRank p) = Fin 0
  /\ getNextRank p = None.
Proof.
  intros Hp.
  cbn [db_pointsToNext db_progressToNext databaseRank pointsToNext
       getUserRank].
  rewrite orNumber_points.
  change (getNextRankThreshold (orString "Diamond Titan" "Bronze Fighter"))
    with 9999.
  repeat split; try lia.
  - unfold getPointsToNextRank. rewrite findInRange_diamond by lia.
    reflexivity.
  - rewrite getNextRank_cases. leb_cases; reflexivity.
Qed.

Lemma database_diamond_points_to_next_witness :
  1000 <= 1200
  /\ db_pointsToNext (databaseRank (Some 1200) (Some "Diamond Titan"%string))
     = Z.max 0 (9999 - 1200)
  /\ (0 < db_pointsToNext
            (databaseRank (Some 1200) (Some "Diamond Titan"%string))
      <-> 1200 < 9999)
  /\ db_progressToNext
       (databaseRank (Some 1200) (Some "Diamond Titan"%string))
     = 1%Q
  /\ pointsToNext (getUserRank 1200) = Fin 0
  /\ getNextRank 1200 = None.
Proof.
  split; [lia | apply (database_diamond_points_to_next 1200); lia].
Defined.

Lemma clamped_fraction_monotone (a b : Z) (dp : positive) :
  a <= b ->
  (0 <= Qmax 0 (Qmin 1 (inject_Z a / inject_Z (Z.pos dp))))%Q
  /\ (Qmax 0 (Qmin 1 (inject_Z a / inject_Z (Z.pos dp)))
      <= Qmax 0 (Qmin 1 (inject_Z b / inject_Z (Z.pos dp))))%Q
  /\ (Qmax 0 (Qmin 1 (inject_Z b / inject_Z (Z.pos dp))) <= 1)%Q.
Proof.
  intros Hab. split; [apply Q.le_max_l |]. split.
  - apply Q.max_le_compat_l, Q.min_le_compat_l.
    unfold Qle, Qdiv, Qmult, Qinv, inject_Z. cbn [Qnum Qden]. nia.
  - apply Q.max_lub; [discriminate | apply Q.le_min_l].
Qed.

Lemma clamped_fraction_full (a : Z) (dp : positive) :
  Z.pos dp <= a ->
  (Qmax 0 (Qmin 1 (inject_Z a / inject_Z (Z.pos dp))) == 1)%Q.
Proof.
  intros Ha.
  assert (Hone : (1 <= inject_Z a / inject_Z (Z.pos dp))%Q)
    by (unfold Qle, Qdiv, Qmult, Qinv, inject_Z; cbn [Qnum Qden]; lia).
  rewrite (Q.min_l _ _ Hone). apply Q.max_r. discriminate.
Qed.

(** X12: on the database path the progress of a tier is a fraction
    between 0 and 1 that never falls when the points grow, and it is 1
    once the points reach the tier's next threshold. *)
Theorem database_progress_monotone (t : string) (p q : Z) :
  In t databaseTierNames ->
  p <= q ->
  (0 <= calculateProgressToNext p t)%Q
  /\ (calculateProgressToNext p t <= calculateProgressToNext q t)%Q
  /\ (calculateProgressToNext q t <= 1)%Q
  /\ (getNextRankThreshold t <= p ->
      (calculateProgressToNext p t == 1)%Q).
Proof.
  intros Hin Hpq. apply in_databaseTierNames in Hin.
  destruct Hin as [-> | [-> | [-> | [-> | ->]]]].
  - change (getNextRankThreshold "Bronze Fighter") with 100.
    change (calculateProgressToNext p "Bronze Fighter")
      with (Qmax 0 (Qmin 1 (inject_Z (p - 0) / inject_Z (Z.pos 100)))).
    change (calculateProgressToNext q "Bronze Fighter")
      with (Qmax 0 (Qmin 1 (inject_Z (q - 0) / inject_Z (Z.pos 100)))).
    pose proof (clamped_fraction_monotone (p - 0) (q - 0) 100 ltac:(lia))
      as (H0 & Hle & H1).
    repeat split; try assumption.
    intros Hfull. apply clamped_fraction_full. lia.
  - change (getNextRankThreshold "Silver Warrior") with 300.
    change (calculateProgressToNext p "Silver Warrior")
      with (Qmax 0 (Qmin 1 (inject_Z (p - 100) / inject_Z (Z.pos 200)))).
    change (calculateProgressToNext q "Silver Warrior")
      with (Qmax 0 (Qmin 1 (inject_Z (q - 100) / inject_Z (Z.pos 200)))).
    pose proof (clamped_fraction_monotone (p - 100) (q - 100) 200
                  ltac:(lia)) as (H0 & Hle & H1).
    repeat split; try assumption.
    intros Hfull. apply clamped_fraction_full. lia.
  - change (getNextRankThreshold "Gold Gladiator") with 600.
    change (calculateProgressToNext p "Gold Gladiator")
      with (Qmax 0 (Qmin 1 (inject_Z (p - 300) / inject_Z (Z.pos 300)))).
    change (calculateProgressToNext q "Gold Gladiator")
      with (Qmax 0 (Qmin 1 (inject_Z (q - 300) / inject_Z (Z.pos 300)))).
    pose proof (clamped_fraction_monotone (p - 300) (q - 300) 300
                  ltac:(lia)) as (H0 & Hle & H1).
    repeat split; try assumption.
    intros Hfull. apply clamped_fraction_full. lia.
  - change (getNextRankThreshold "Platinum Spartan") with 1000.
    change (calculateProgressToNext p "Platinum Spartan")
      with (Qmax 0 (Qmin 1 (inject_Z (p - 600) / inject_Z (Z.pos 400)))).
    change (calculateProgressToNext q "Platinum Spartan")
      with (Qmax 0 (Qmin 1 (inject_Z (q - 600) / inject_Z (Z.pos 400)))).
    pose proof (clamped_fraction_monotone (p - 600) (q - 600) 400
                  ltac:(lia)) as (H0 & Hle & H1).
    repeat split; try assumption.
    intros Hfull. apply clamped_fraction_full. lia.
  - change (calculateProgressToNext p "Diamond Titan") with 1%Q.
    change (calculateProgressToNext q "Diamond Titan") with 1%Q.
    repeat split; first [discriminate | intros _; reflexivity].
Qed.

Lemma database_progress_monotone_witness :
  In "Silver Warrior"%string databaseTierNames
  /\ 150 <= 220
  /\ (0 <= calculateProgressToNext 150 "Silver Warrior")%Q
  /\ (calculateProgressToNext 150 "Silver Warrior"
      <= calculateProgressToNext 220 "Silver Warrior")%Q
  /\ (calculateProgressToNext 220 "Silver Warrior" <= 1)%Q
  /\ (getNextRankThreshold "Silver Warrior" <= 150 ->
      (calculateProgressToNext 150 "Silver Warrior" == 1)%Q).
Proof.
  assert (Hin : In "Silver Warrior"%string databaseTierNames)
    by (cbn; auto).
  split; [exact Hin |]. split; [lia |].
  apply (database_progress_monotone "Silver Warrior" 150 220 Hin). lia.
Defined.

(** * Further properties of the streak and stats calculation *)

(** ** Sets as insertion-ordered lists *)

Section SetFacts.

Context {A : Type}.
Variable eqb : A -> A -> bool.
Hypothesis eqb_eq : forall x y, eqb x y = true <-> x = y.

Lemma existsb_eqb_In (a : A) (s : list A) :
  existsb (eqb a) s = true <-> In a s.
Proof.
  rewrite existsb_exists. split.
  - intros [y [Hin Heq]]. apply eqb_eq in Heq. subst y. exact Hin.
  - intros Hin. exists a. split; [exact Hin | apply eqb_eq; reflexivity].
Qed.

Lemma setAdd_In (s : list A) (a x : A) :
  In x (setAdd eqb s a) <-> In x s \/ x = a.
Proof.
  unfold setAdd. destruct (existsb (eqb a) s) eqn:Hex.
  - apply existsb_eqb_In in Hex. split; [auto |].
    intros [Hin | ->]; assumption.
  - rewrite in_app_iff. cbn [In]. intuition auto.
Qed.

Lemma setAdd_NoDup (s : list A) (a : A) :
  NoDup s -> NoDup (setAdd eqb s a).
Proof.
  intros Hnd. unfold setAdd. destruct (existsb (eqb a) s) eqn:Hex.
  - exact Hnd.
  - apply (Permutation_NoDup (Permutation_cons_append s a)).
    constructor; [| exact Hnd].
    intros Hin. apply existsb_eqb_In in Hin. congruence.
Qed.

Lemma setAdd_length (s : list A) (a : A) :
  (List.length (setAdd eqb s a) <= S (List.length s))%nat.
Proof.
  unfold setAdd. destruct (existsb (eqb a) s).
  - auto.
  - rewrite length_app. cbn. lia.
Qed.

Lemma fold_setAdd_In (l : list A) :
  forall acc x,
    In x (fold_left (setAdd eqb) l acc) <-> In x acc \/ In x l.
Proof.
  induction l as [| a rest IH]; intros acc x; cbn [fold_left In].
  - tauto.
  - rewrite IH, setAdd_In. intuition auto.
Qed.

Lemma fold_setAdd_NoDup (l : list A) :
  forall acc, NoDup acc -> NoDup (fold_left (setAdd eqb) l acc).
Proof.
  induction l as [| a rest IH]; intros acc Hnd; cbn [fold_left].
  - exact Hnd.
  - apply IH, setAdd_NoDup, Hnd.
Qed.

Lemma fold_setAdd_length (l : list A) :
  forall acc,
    (List.length (fold_left (setAdd eqb) l acc)
     <= List.length acc + List.length l)%nat.
Proof.
  induction l as [| a rest IH]; intros acc; cbn [fold_left List.length].
  - lia.
  - specialize (IH (setAdd eqb acc a)).
    pose proof (setAdd_length acc a). lia.
Qed.

End SetFacts.

(** ** The list of workout days *)

Lemma descending_unique (l1 : list Z) :
  forall l2,
    descending l1 -> descending l2 ->
    (forall x, In x l1 <-> In x l2) -> l1 = l2.
Proof.
  unfold descending.
  induction l1 as [| a1 t1 IH]; intros [| a2 t2] H1 H2 Hsame.
  - reflexivity.
  - exfalso. apply (Hsame a2). left. reflexivity.
  - exfalso. apply (Hsame a1). left. reflexivity.
  - apply StronglySorted_inv in H1, H2.
    destruct H1 as [Ht1 Ha1], H2 as [Ht2 Ha2].
    rewrite Forall_forall in Ha1, Ha2.
    assert (Heq : a1 = a2).
    { assert (Hin2 : In a2 (a1 :: t1)) by (apply Hsame; left; reflexivity).
      assert (Hin1 : In a1 (a2 :: t2)) by (apply Hsame; left; reflexivity).
      destruct Hin2 as [-> | Hin2]; [reflexivity |].
      destruct Hin1 as [<- | Hin1]; [reflexivity |].
      specialize (Ha1 _ Hin2). specialize (Ha2 _ Hin1). lia. }
    subst a2. f_equal. apply IH; try assumption.
    intros x. split; intros Hin.
    + assert (Hx : In x (a1 :: t2)) by (apply Hsame; right; exact Hin).
      destruct Hx as [<- | Hx]; [| exact Hx].
      specialize (Ha1 _ Hin). lia.
    + assert (Hx : In x (a1 :: t1)) by (apply Hsame; right; exact Hin).
      destruct Hx as [<- | Hx]; [| exact Hx].
      specialize (Ha2 _ Hin). lia.
Qed.

Lemma sorted_nodup_descending (l : list Z) :
  Sorted (fun a b => b - a <= 0) l -> NoDup l -> descending l.
Proof.
  intros Hsorted Hnd.
  assert (Hstrong : StronglySorted (fun a b => b <= a) l).
  { apply Sorted_StronglySorted.
    - intros x y z Hxy Hyz. lia.
    - eapply Sorted_ind with
        (P := fun l => Sorted (fun a b => b <= a) l);
        [constructor | | exact Hsorted].
      intros a l' _ IH Hhd. constructor; [exact IH |].
      destruct Hhd; constructor. lia. }
  clear Hsorted. unfold descending.
  induction Hstrong as [| a l' Hl' IH Ha]; [constructor |].
  apply NoDup_cons_iff in Hnd. destruct Hnd as [Hnotin Hnd].
  constructor; [apply IH; exact Hnd |].
  rewrite Forall_forall in *. intros x Hin.
  specialize (Ha x Hin).
  assert (x <> a) by (intros ->; contradiction). lia.
Qed.

(** [workoutDates] holds exactly the days of the history, each once,
    latest first. *)
Lemma workoutDatesOf_In (tz : Z) (workouts : list Workout) (d : Z) :
  In d (workoutDatesOf tz workouts)
  <-> exists w, In w workouts /\ workoutDay tz w = d.
Proof.
  unfold workoutDatesOf, newSet, workoutDay.
  split.
  - intros Hin.
    apply (Permutation_in d (Permutation_sym (arraySort_perm _ _))) in Hin.
    apply (fold_setAdd_In Z.eqb Z.eqb_eq) in Hin.
    destruct Hin as [[] | Hin].
    apply in_map_iff in Hin. destruct Hin as [w [Heq Hw]]. eauto.
  - intros [w [Hw Heq]].
    apply (Permutation_in d (arraySort_perm _ _)).
    apply (fold_setAdd_In Z.eqb Z.eqb_eq). right.
    apply in_map_iff. eauto.
Qed.

Lemma workoutDatesOf_descending (tz : Z) (workouts : list Workout) :
  descending (workoutDatesOf tz workouts).
Proof.
  unfold workoutDatesOf. apply sorted_nodup_descending.
  - apply arraySort_sorted. intros x y. lia.
  - apply (Permutation_NoDup (arraySort_perm _ _)).
    apply (fold_setAdd_NoDup Z.eqb Z.eqb_eq). constructor.
Qed.

Lemma workoutDatesOf_length (tz : Z) (workouts : list Workout) :
  (List.length (workoutDatesOf tz workouts) <= List.length workouts)%nat.
Proof.
  unfold workoutDatesOf, newSet.
  rewrite <- (Permutation_length (arraySort_perm _ _)).
  pose proof (fold_setAdd_length Z.eqb
                (map (fun w => setHoursZero tz (workout_date w)) workouts) [])
    as Hlen.
  rewrite length_map in Hlen. exact Hlen.
Qed.

(** Histories with the same days have the same [workoutDates]. *)
Lemma workoutDatesOf_same_days (tz : Z) (ws ws' : list Workout) :
  (forall d,
      (exists w, In w ws /\ workoutDay tz w = d)
      <-> (exists w, In w ws' /\ workoutDay tz w = d)) ->
  workoutDatesOf tz ws = workoutDatesOf tz ws'.
Proof.
  intros Hsame. apply descending_unique;
    try apply workoutDatesOf_descending.
  intros x. rewrite !workoutDatesOf_In. apply Hsame.
Qed.

(** ** Streaks as a function of the workout days *)

Lemma workoutDatesOf_perm (tz : Z) (ws ws' : list Workout) :
  Permutation ws ws' -> workoutDatesOf tz ws = workoutDatesOf tz ws'.
Proof.
  intros Hperm. apply workoutDatesOf_same_days. intros d.
  split; intros [w [Hin Hd]]; exists w; split; try exact Hd.
  - apply (Permutation_in w Hperm Hin).
  - apply (Permutation_in w (Permutation_sym Hperm) Hin).
Qed.

(** [calculateStreaks] on a non-empty history is the two loops run on
    the days of the history. *)
Lemma calculateStreaks_fst (tz now : Z) (w0 : Workout) (rest : list Workout) :
  fst (calculateStreaks tz now (w0 :: rest))
  = streaksOfDates (setHoursZero tz now) (workoutDatesOf tz (w0 :: rest)).
Proof.
  unfold calculateStreaks, streaksOfDates.
  rewrite (workoutDatesOf_perm tz
             (arraySort (fun a b => workout_date b - workout_date a)
                (w0 :: rest)) (w0 :: rest))
    by (apply Permutation_sym, arraySort_perm).
  destruct (workoutDatesOf tz (w0 :: rest)) as [| first others].
  - reflexivity.
  - destruct (longestStreakLoop first others 0 1). reflexivity.
Qed.

(** X13: the streaks depend only on the set of days with a workout:
    neither the order of the history, nor several workouts on one day,
    nor the time of day of a workout changes them. *)
Theorem streaks_depend_on_days_only (tz now : Z) (ws ws' : list Workout) :
  (forall d,
      (exists w, In w ws /\ workoutDay tz w = d)
      <-> (exists w, In w ws' /\ workoutDay tz w = d)) ->
  fst (calculateStreaks tz now ws) = fst (calculateStreaks tz now ws').
Proof.
  intros Hsame.
  destruct ws as [| w0 rest], ws' as [| w0' rest'].
  - reflexivity.
  - exfalso.
    destruct (proj2 (Hsame (workoutDay tz w0'))) as [w [[] _]].
    exists w0'. split; [left |]; reflexivity.
  - exfalso.
    destruct (proj1 (Hsame (workoutDay tz w0))) as [w [[] _]].
    exists w0. split; [left |]; reflexivity.
  - rewrite !calculateStreaks_fst.
    rewrite (workoutDatesOf_same_days tz _ _ Hsame). reflexivity.
Qed.

Lemma streaks_depend_on_days_only_witness :
  (forall d,
      (exists w, In w [workoutOnDay 8; workoutOnDay 10; workoutOnDay 8]
                 /\ workoutDay 0 w = d)
      <-> (exists w, In w skippedDayHistory /\ workoutDay 0 w = d))
  /\ fst (calculateStreaks 0 noonOfDay10
            [workoutOnDay 8; workoutOnDay 10; workoutOnDay 8])
     = fst (calculateStreaks 0 noonOfDay10 skippedDayHistory).
Proof.
  assert (Hsame :
            forall d,
              (exists w, In w [workoutOnDay 8; workoutOnDay 10; workoutOnDay 8]
                         /\ workoutDay 0 w = d)
              <-> (exists w, In w skippedDayHistory /\ workoutDay 0 w = d)).
  { intros d. unfold skippedDayHistory.
    split; intros [w [Hin Hd]]; exists w; split; try exact Hd;
      cbn [In] in *; intuition auto. }
  split; [exact Hsame |].
  apply (streaks_depend_on_days_only 0 noonOfDay10 _ _ Hsame).
Defined.



Lemma countedDates_length (workoutDates : list Z) :
  forall checkDate,
    (List.length (countedDates workoutDates checkDate)
     <= List.length workoutDates)%nat.
Proof.
  induction workoutDates as [| d rest IH]; intros checkDate;
    cbn [countedDates List.length]; [lia |].
  destruct ((floorDiv (checkDate - d) MS_PER_DAY =? 0)
            || (floorDiv (checkDate - d) MS_PER_DAY =? 1));
    cbn [List.length]; [specialize (IH (setDatePrev d)) |]; lia.
Qed.



(** ** Histories of consecutive days *)








(** ** Bounds on the streaks *)

Lemma longestStreakLoop_bounds (rest : list Z) :
  forall prevDate l t,
    1 <= t ->
    let '(l', t') := longestStreakLoop prevDate rest l t in
    Z.max l t <= Z.max l' t'
    /\ Z.max l' t' <= Z.max l (t + Z.of_nat (List.length rest))
    /\ 1 <= t'.
Proof.
  induction rest as [| d rest' IH]; intros prevDate l t Ht;
    cbn [longestStreakLoop List.length].
  - lia.
  - destruct (floorDiv (prevDate - d) MS_PER_DAY =? 1).
    + specialize (IH d l (t + 1) ltac:(lia)).
      destruct (longestStreakLoop d rest' l (t + 1)) as [l' t']. lia.
    + specialize (IH d (Z.max l t) 1 ltac:(lia)).
      destruct (longestStreakLoop d rest' (Z.max l t) 1) as [l' t']. lia.
Qed.

Lemma calculateStreaks_bounds (tz now : Z) (w0 : Workout)
    (rest : list Workout) :
  1 <= streak_longest (fst (calculateStreaks tz now (w0 :: rest)))
    <= Z.of_nat (List.length (w0 :: rest))
  /\ 0 <= streak_current (fst (calculateStreaks tz now (w0 :: rest)))
       <= Z.of_nat (List.length (w0 :: rest)).
Proof.
  rewrite calculateStreaks_fst.
  pose proof (workoutDatesOf_length tz (w0 :: rest)) as Hlen.
  pose proof (workoutDatesOf_In tz (w0 :: rest) (workoutDay tz w0)) as Hin.
  destruct (workoutDatesOf tz (w0 :: rest)) as [| d0 others].
  { exfalso. apply Hin. exists w0. split; [left |]; reflexivity. }
  unfold streaksOfDates.
  pose proof (longestStreakLoop_bounds others d0 0 1 ltac:(lia)) as Hlong.
  destruct (longestStreakLoop d0 others 0 1) as [l t].
  cbn [streak_current streak_longest].
  rewrite currentStreakLoop_counts.
  pose proof (countedDates_length (d0 :: others) (setHoursZero tz now)).
  cbn [List.length] in *. lia.
Qed.

(** X16: for a non-empty history the longest streak is at least 1, and
    neither streak exceeds the number of workouts. *)
Theorem streaks_bounded_by_history (tz now : Z) (ws : list Workout) :
  ws <> [] ->
  let s := fst (calculateStreaks tz now ws) in
  1 <= streak_longest s <= Z.of_nat (List.length ws)
  /\ 0 <= streak_current s <= Z.of_nat (List.length ws).
Proof.
  intros Hne. destruct ws as [| w0 rest]; [contradiction |].
  apply calculateStreaks_bounds.
Qed.

Lemma streaks_bounded_by_history_witness :
  skippedDayHistory <> []
  /\ (let s := fst (calculateStreaks 0 noonOfDay10 skippedDayHistory) in
      1 <= streak_longest s <= Z.of_nat (List.length skippedDayHistory)
      /\ 0 <= streak_current s <= Z.of_nat (List.length skippedDayHistory)).
Proof.
  assert (Hne : skippedDayHistory <> []) by discriminate.
  split; [exact Hne |].
  apply (streaks_bounded_by_history 0 noonOfDay10 skippedDayHistory Hne).
Defined.

(** ** The aggregated stats *)

(** The record [calculateUserStats] returns for a non-empty history. *)
Lemma calculateUserStats_fst (tz now : Z) (w0 : Workout)
    (rest : list Workout) :
  let sorted :=
    arraySort (fun a b => workout_date a - workout_date b) (w0 :: rest) in
  let n := Z.of_nat (List.length sorted) in
  let wd :=
    ceilDiv (workout_date (last sorted w0) - workout_date (hd w0 sorted))
      MS_PER_DAY + 1 in
  fst (calculateUserStats tz now (w0 :: rest))
  = {| totalWorkouts := Some n;
       currentStreak :=
         Some (streak_current (fst (calculateStreaks tz now sorted)));
       longestStreak :=
         Some (streak_longest (fst (calculateStreaks tz now sorted)));
       totalExercises :=
         Some (Z.of_nat
                 (List.length (fold_left addWorkoutExercises sorted [])));
       workoutDays := Some wd;
       personalRecords := Some (floorDiv n 5);
       consistencyScore :=
         Some (Z.min 100
                 (Qfloor (inject_Z n / Qmax 1 (inject_Z wd / 7) * 20))) |}.
Proof.
  cbv zeta. unfold calculateUserStats.
  destruct (calculateStreaks tz now
              (arraySort (fun a b => workout_date a - workout_date b)
                 (w0 :: rest))) as [streaks workouts'].
  reflexivity.
Qed.

(** In a list sorted oldest first, the first element is the oldest and
    the last one the latest. *)
Lemma sorted_first_last (l : list Workout) (d : Workout) :
  Sorted (fun a b => workout_date a - workout_date b <= 0) l ->
  forall w, In w l ->
    workout_date (hd d l) <= workout_date w <= workout_date (last l d).
Proof.
  intros Hsorted.
  assert (Hstrong :
            StronglySorted (fun a b => workout_date a <= workout_date b) l).
  { apply Sorted_StronglySorted.
    - intros x y z Hxy Hyz. lia.
    - eapply Sorted_ind with
        (P := fun l => Sorted (fun a b => workout_date a <= workout_date b) l);
        [constructor | | exact Hsorted].
      intros a l' _ IH Hhd. constructor; [exact IH |].
      destruct Hhd; constructor. lia. }
  clear Hsorted.
  induction Hstrong as [| a l' Hl' IH Ha]; intros w Hin; [destruct Hin |].
  rewrite Forall_forall in Ha. cbn [hd].
  destruct l' as [| b l''].
  - destruct Hin as [<- | []]. cbn. lia.
  - change (last (a :: b :: l'') d) with (last (b :: l'') d).
    destruct Hin as [<- | Hin].
    + specialize (IH b ltac:(left; reflexivity)).
      specialize (Ha b ltac:(left; reflexivity)). cbn [hd] in IH. lia.
    + specialize (IH w Hin). specialize (Ha w Hin). lia.
Qed.

(** [Math.ceil(a / b) * b] is not below [a]. *)
Lemma ceilDiv_covers (a : Z) (bp : positive) :
  a <= ceilDiv a (Z.pos bp) * Z.pos bp.
Proof.
  unfold ceilDiv.
  pose proof (Qle_ceiling (inject_Z a / inject_Z (Z.pos bp))) as Hle.
  remember (Qceiling (inject_Z a / inject_Z (Z.pos bp))) as c eqn:Hc.
  clear Hc.
  unfold Qle, Qdiv, Qmult, Qinv, inject_Z in Hle. cbn [Qnum Qden] in Hle.
  lia.
Qed.

Lemma ceilDiv_nonneg (a : Z) (bp : positive) :
  0 <= a -> 0 <= ceilDiv a (Z.pos bp).
Proof.
  intros Ha. unfold ceilDiv.
  change 0 with (Qceiling 0). apply Qceiling_resp_le.
  unfold Qle, Qdiv, Qmult, Qinv, inject_Z. cbn [Qnum Qden]. lia.
Qed.

(** The nested [forEach] loops add the keys of the history one by one. *)
Lemma fold_addWorkoutExercises (l : list Workout) :
  forall acc,
    fold_left addWorkoutExercises l acc
    = fold_left (setAdd String.eqb) (exerciseKeysOf l) acc.
Proof.
  induction l as [| w rest IH]; intros acc; [reflexivity |].
  cbn [fold_left exerciseKeysOf flat_map]. rewrite fold_left_app, IH.
  f_equal. unfold addWorkoutExercises.
  destruct (exercises w) as [exs |]; [| reflexivity].
  revert acc. induction exs as [| e exs IHe]; intros acc; [reflexivity |].
  cbn [map fold_left]. apply IHe.
Qed.

(** The consistency score in integer arithmetic. *)
Lemma consistency_closed_form (n wd : Z) :
  1 <= wd ->
  Qfloor (inject_Z n / Qmax 1 (inject_Z wd / 7) * 20)
  = (140 * n) / Z.max 7 wd.
Proof.
  intros Hwd. rewrite Zdiv_Qdiv. apply Qfloor_comp.
  destruct (Z.le_gt_cases wd 7) as [Hle | Hgt].
  - rewrite Z.max_l by lia.
    assert (Hmax : (Qmax 1 (inject_Z wd / 7) == 1)%Q).
    { apply Q.max_l. unfold Qle, Qdiv, Qmult, Qinv, inject_Z.
      cbn [Qnum Qden]. lia. }
    rewrite Hmax. rewrite inject_Z_mult. field.
  - rewrite Z.max_r by lia.
    assert (Hmax : (Qmax 1 (inject_Z wd / 7) == inject_Z wd / 7)%Q).
    { apply Q.max_r. unfold Qle, Qdiv, Qmult, Qinv, inject_Z.
      cbn [Qnum Qden]. lia. }
    rewrite Hmax. rewrite inject_Z_mult. field.
    intros Heq. unfold Qeq, inject_Z in Heq. cbn [Qnum Qden] in Heq. lia.
Qed.

Lemma calculateStreaks_perm (tz now : Z) (ws ws' : list Workout) :
  Permutation ws ws' ->
  fst (calculateStreaks tz now ws) = fst (calculateStreaks tz now ws').
Proof.
  intros Hperm. destruct ws as [| w0 rest], ws' as [| w0' rest'].
  - reflexivity.
  - apply Permutation_nil in Hperm. discriminate Hperm.
  - apply Permutation_sym, Permutation_nil in Hperm. discriminate Hperm.
  - rewrite !calculateStreaks_fst, (workoutDatesOf_perm tz _ _ Hperm).
    reflexivity.
Qed.

Lemma stats_fields (tz now : Z) (w0 : Workout) (rest : list Workout) :
  let ws := w0 :: rest in
  let st := fst (calculateUserStats tz now ws) in
  let n := Z.of_nat (List.length ws) in
  totalWorkouts st = Some n
  /\ personalRecords st = Some (n / 5)
  /\ 1 <= getField WorkoutDays st
  /\ (forall w w',
         In w ws -> In w' ws ->
         workout_date w' - workout_date w
         <= (getField WorkoutDays st - 1) * MS_PER_DAY)
  /\ consistencyScore st
     = Some (Z.min 100 ((140 * n) / Z.max 7 (getField WorkoutDays st)))
  /\ 0 <= getField TotalExercises st
       <= Z.of_nat (List.length (exerciseKeysOf ws))
  /\ currentStreak st
     = Some (streak_current (fst (calculateStreaks tz now ws)))
  /\ longestStreak st
     = Some (streak_longest (fst (calculateStreaks tz now ws))).
Proof.
  cbv zeta. rewrite calculateUserStats_fst. cbv zeta.
  set (sorted :=
         arraySort (fun a b => workout_date a - workout_date b) (w0 :: rest)).
  assert (Hperm : Permutation (w0 :: rest) sorted)
    by apply arraySort_perm.
  assert (Hsorted :
            Sorted (fun a b => workout_date a - workout_date b <= 0) sorted)
    by (apply arraySort_sorted; intros x y; lia).
  assert (Hlen : List.length sorted = List.length (w0 :: rest))
    by (symmetry; apply Permutation_length, Hperm).
  assert (Hbounds := sorted_first_last sorted w0 Hsorted).
  assert (Hspan :
            0 <= workout_date (last sorted w0) - workout_date (hd w0 sorted)).
  { specialize (Hbounds w0 (Permutation_in w0 Hperm ltac:(left; reflexivity))).
    lia. }
  set (span := workout_date (last sorted w0) - workout_date (hd w0 sorted))
    in *.
  assert (Hwd : 1 <= ceilDiv span MS_PER_DAY + 1).
  { pose proof (ceilDiv_nonneg span 86400000 Hspan) as Hc.
    change (Z.pos 86400000) with MS_PER_DAY in Hc. lia. }
  cbn [totalWorkouts personalRecords consistencyScore currentStreak
       longestStreak getField orDefault workoutDays totalExercises].
  rewrite Hlen, floorDiv_Zdiv, consistency_closed_form by exact Hwd.
  repeat split; try lia.
  - intros w w' Hw Hw'.
    pose proof (Hbounds w (Permutation_in w Hperm Hw)).
    pose proof (Hbounds w' (Permutation_in w' Hperm Hw')).
    pose proof (ceilDiv_covers span 86400000) as Hc.
    change (Z.pos 86400000) with MS_PER_DAY in Hc. lia.
  - rewrite fold_addWorkoutExercises.
    pose proof (fold_setAdd_length String.eqb (exerciseKeysOf sorted) [])
      as Hkeys.
    cbn [List.length] in Hkeys.
    assert (Hk : List.length (exerciseKeysOf sorted)
                 = List.length (exerciseKeysOf (w0 :: rest))).
    { unfold exerciseKeysOf.
      apply Permutation_length, Permutation_sym, Permutation_flat_map, Hperm. }
    lia.
  - do 2 f_equal. apply calculateStreaks_perm, Permutation_sym, Hperm.
  - do 2 f_equal. apply calculateStreaks_perm, Permutation_sym, Hperm.
Qed.

(** The set [uniqueExercises] holds each key of the history once. *)
Lemma uniqueExercises_spec (l : list Workout) :
  NoDup (fold_left addWorkoutExercises l [])
  /\ forall k,
       In k (fold_left addWorkoutExercises l []) <-> In k (exerciseKeysOf l).
Proof.
  rewrite fold_addWorkoutExercises. split.
  - apply (fold_setAdd_NoDup String.eqb String.eqb_eq). constructor.
  - intros k. rewrite (fold_setAdd_In String.eqb String.eqb_eq).
    cbn [In]. tauto.
Qed.

Lemma exerciseKeysOf_perm (l l' : list Workout) (k : string) :
  Permutation l l' -> In k (exerciseKeysOf l) -> In k (exerciseKeysOf l').
Proof.
  intros Hperm. unfold exerciseKeysOf.
  apply Permutation_in, Permutation_flat_map, Hperm.
Qed.

Lemma hd_last_In {A : Type} (l : list A) (d : A) :
  l <> [] -> In (hd d l) l /\ In (last l d) l.
Proof.
  intros Hne. destruct l as [| a rest]; [contradiction |].
  split; [left; reflexivity |].
  clear Hne. revert a. induction rest as [| b rest IH]; intros a.
  - left. reflexivity.
  - right. apply IH.
Qed.

(** The stats do not depend on the order of the history. *)
Lemma calculateUserStats_perm (tz now : Z) (ws ws' : list Workout) :
  Permutation ws ws' ->
  fst (calculateUserStats tz now ws) = fst (calculateUserStats tz now ws').
Proof.
  intros Hperm. destruct ws as [| w0 rest], ws' as [| w0' rest'].
  - reflexivity.
  - apply Permutation_nil in Hperm. discriminate Hperm.
  - apply Permutation_sym, Permutation_nil in Hperm. discriminate Hperm.
  - rewrite !calculateUserStats_fst. cbv zeta.
    set (s := arraySort (fun a b => workout_date a - workout_date b)
                (w0 :: rest)).
    set (s' := arraySort (fun a b => workout_date a - workout_date b)
                 (w0' :: rest')).
    assert (Hs : Permutation s s').
    { apply perm_trans with (w0 :: rest);
        [apply Permutation_sym, arraySort_perm |].
      apply perm_trans with (w0' :: rest');
        [exact Hperm | apply arraySort_perm]. }
    assert (Hsorted :
              Sorted (fun a b => workout_date a - workout_date b <= 0) s)
      by (apply arraySort_sorted; intros x y; lia).
    assert (Hsorted' :
              Sorted (fun a b => workout_date a - workout_date b <= 0) s')
      by (apply arraySort_sorted; intros x y; lia).
    assert (Hne : s <> []).
    { intros Hnil. pose proof (arraySort_perm
                                 (fun a b => workout_date a - workout_date b)
                                 (w0 :: rest)) as Hp.
      fold s in Hp. rewrite Hnil in Hp.
      apply Permutation_sym, Permutation_nil in Hp. discriminate Hp. }
    assert (Hne' : s' <> []).
    { intros Hnil. rewrite Hnil in Hs.
      apply Permutation_sym, Permutation_nil in Hs. contradiction. }
    destruct (hd_last_In s w0 Hne) as [Hhd Hlast].
    destruct (hd_last_In s' w0' Hne') as [Hhd' Hlast'].
    pose proof (sorted_first_last s w0 Hsorted) as Hb.
    pose proof (sorted_first_last s' w0' Hsorted') as Hb'.
    assert (Hfirst : workout_date (hd w0 s) = workout_date (hd w0' s')).
    { pose proof (Hb _ (Permutation_in _ (Permutation_sym Hs) Hhd')).
      pose proof (Hb' _ (Permutation_in _ Hs Hhd)). lia. }
    assert (Hend : workout_date (last s w0) = workout_date (last s' w0')).
    { pose proof (Hb _ (Permutation_in _ (Permutation_sym Hs) Hlast')).
      pose proof (Hb' _ (Permutation_in _ Hs Hlast)). lia. }
    assert (Hkeys :
              List.length (fold_left addWorkoutExercises s [])
              = List.length (fold_left addWorkoutExercises s' [])).
    { destruct (uniqueExercises_spec s) as [Hnd Hin].
      destruct (uniqueExercises_spec s') as [Hnd' Hin'].
      apply Permutation_length, NoDup_Permutation; try assumption.
      intros k. rewrite Hin, Hin'. split.
      - apply exerciseKeysOf_perm, Hs.
      - apply exerciseKeysOf_perm, Permutation_sym, Hs. }
    rewrite (Permutation_length Hs), Hfirst, Hend, Hkeys,
      (calculateStreaks_perm tz now s s' Hs).
    reflexivity.
Qed.

(** X17: for a non-empty history [totalWorkouts] is the number of
    workouts, [personalRecords] is a fifth of it rounded down, and
    [workoutDays] is at least 1 and spans the history: no two workouts
    are further apart than [workoutDays - 1] days. *)
Theorem stats_counts_and_span (tz now : Z) (ws : list Workout) :
  ws <> [] ->
  let st := fst (calculateUserStats tz now ws) in
  let n := Z.of_nat (List.length ws) in
  totalWorkouts st = Some n
  /\ personalRecords st = Some (n / 5)
  /\ 1 <= getField WorkoutDays st
  /\ (forall w w',
         In w ws -> In w' ws ->
         workout_date w' - workout_date w
         <= (getField WorkoutDays st - 1) * MS_PER_DAY).
Proof.
  intros Hne. destruct ws as [| w0 rest]; [contradiction |].
  pose proof (stats_fields tz now w0 rest) as H. cbv zeta in *.
  destruct H as (Htotal & Hpr & Hwd & Hspan & _). auto.
Qed.

Lemma stats_counts_and_span_witness :
  skippedDayHistory <> []
  /\ (let st := fst (calculateUserStats 0 noonOfDay10 skippedDayHistory) in
      let n := Z.of_nat (List.length skippedDayHistory) in
      totalWorkouts st = Some n
      /\ personalRecords st = Some (n / 5)
      /\ 1 <= getField WorkoutDays st
      /\ (forall w w',
             In w skippedDayHistory -> In w' skippedDayHistory ->
             workout_date w' - workout_date w
             <= (getField WorkoutDays st - 1) * MS_PER_DAY)).
Proof.
  assert (Hne : skippedDayHistory <> []) by discriminate.
  split; [exact Hne |].
  apply (stats_counts_and_span 0 noonOfDay10 skippedDayHistory Hne).
Defined.




(** The keys of the mixed-case history: two spellings of one name give
    one key, and the nameless and the empty name share ['unknown']. *)
Example mixedCaseHistory_keys :
  exerciseKeysOf mixedCaseHistory
  = ["bench press"; "bench press"; "unknown"; "unknown"]%string
  /\ totalExercises (fst (calculateUserStats 0 noonOfDay10 mixedCaseHistory))
     = Some 2.
Proof. split; reflexivity. Qed.

Lemma history_fields_nonneg (tz now : Z) (w0 : Workout)
    (rest : list Workout) (f : Field) :
  0 <= getField f (fst (calculateUserStats tz now (w0 :: rest))).
Proof.
  pose proof (stats_fields tz now w0 rest) as H. cbv zeta in H.
  destruct H as (Htotal & Hpr & Hwd & _ & Hcs & Hte & Hcur & Hlong).
  pose proof (calculateStreaks_bounds tz now w0 rest) as [Hl Hc].
  destruct f; unfold getField;
    rewrite ?Htotal, ?Hpr, ?Hcs, ?Hcur, ?Hlong; cbn [orDefault];
    try lia.
  - unfold getField in Hte. lia.
  - unfold getField in Hwd. lia.
  - apply Z.div_pos; lia.
  - assert (0 <= (140 * Z.of_nat (List.length (w0 :: rest)))
                 / Z.max 7 (getField WorkoutDays
                              (fst (calculateUserStats tz now (w0 :: rest)))))
      by (apply Z.div_pos; lia).
    lia.
Qed.

(** X20: scoring a non-empty history gives at least 2 points per
    workout, 10 per five workouts and 1 for the longest streak. *)
Theorem score_of_history_lower_bound (tz now : Z) (ws : list Workout) :
  ws <> [] ->
  let n := Z.of_nat (List.length ws) in
  2 * n + 10 * (n / 5) + 1
  <= calculateRankingPoints (fst (calculateUserStats tz now ws)).
Proof.
  intros Hne. destruct ws as [| w0 rest]; [contradiction |].
  cbv zeta. rewrite calculateRankingPoints_unfold.
  pose proof (stats_fields tz now w0 rest) as H. cbv zeta in H.
  destruct H as (Htotal & Hpr & _ & _ & _ & _ & _ & Hlong).
  pose proof (calculateStreaks_bounds tz now w0 rest) as [Hl _].
  set (st := fst (calculateUserStats tz now (w0 :: rest))) in *.
  assert (Hnn : forall f, 0 <= getField f st)
    by (intros f; apply history_fields_nonneg).
  assert (Htw : getField TotalWorkouts st
                = Z.of_nat (List.length (w0 :: rest)))
    by (unfold getField; rewrite Htotal; reflexivity).
  assert (Hprv : getField PersonalRecords st
                 = Z.of_nat (List.length (w0 :: rest)) / 5)
    by (unfold getField; rewrite Hpr; reflexivity).
  assert (Hls : 1 <= getField LongestStreak st)
    by (unfold getField; rewrite Hlong; cbn [orDefault]; lia).
  unfold weightedSum. rewrite Htw, Hprv.
  pose proof (Hnn CurrentStreak). pose proof (Hnn ConsistencyScore).
  pose proof (Z.div_pos (getField TotalExercises st) 5
                (Hnn TotalExercises) ltac:(lia)).
  pose proof (Z.div_pos (getField WorkoutDays st) 7
                (Hnn WorkoutDays) ltac:(lia)).
  lia.
Qed.

Lemma score_of_history_lower_bound_witness :
  skippedDayHistory <> []
  /\ (let n := Z.of_nat (List.length skippedDayHistory) in
      2 * n + 10 * (n / 5) + 1
      <= calculateRankingPoints
           (fst (calculateUserStats 0 noonOfDay10 skippedDayHistory))).
Proof.
  assert (Hne : skippedDayHistory <> []) by discriminate.
  split; [exact Hne |].
  apply (score_of_history_lower_bound 0 noonOfDay10 skippedDayHistory Hne).
Defined.

(** X21: the stats do not depend on the order in which the workouts
    are handed over. *)
Theorem stats_independent_of_order (tz now : Z) (ws ws' : list Workout) :
  Permutation ws ws' ->
  fst (calculateUserStats tz now ws) = fst (calculateUserStats tz now ws').
Proof. apply calculateUserStats_perm. Qed.

Lemma stats_independent_of_order_witness :
  Permutation oldestFirstHistory [workoutOnDay 2; workoutOnDay 1]
  /\ fst (calculateUserStats 0 noonOfDay10 oldestFirstHistory)
     = fst (calculateUserStats 0 noonOfDay10 [workoutOnDay 2; workoutOnDay 1]).
Proof.
  assert (Hperm :
            Permutation oldestFirstHistory [workoutOnDay 2; workoutOnDay 1])
    by apply perm_swap.
  split; [exact Hperm |].
  apply (stats_independent_of_order 0 noonOfDay10 _ _ Hperm).
Defined.

(** X22: the call reorders the caller's array, but it can be repeated:
    a second call on the array as the first call left it returns the
    same stats, and so the same points. *)
Theorem stats_call_repeatable (tz now : Z) (ws : list Workout) :
  fst (calculateUserStats tz now (snd (calculateUserStats tz now ws)))
  = fst (calculateUserStats tz now ws)
  /\ calculateRankingPoints
       (fst (calculateUserStats tz now (snd (calculateUserStats tz now ws))))
     = calculateRankingPoints (fst (calculateUserStats tz now ws)).
Proof.
  assert (Heq :
            fst (calculateUserStats tz now
                   (snd (calculateUserStats tz now ws)))
            = fst (calculateUserStats tz now ws)).
  { apply calculateUserStats_perm, Permutation_sym,
      calculateUserStats_keeps_elements. }
  split; [exact Heq | rewrite Heq; reflexivity].
Qed.

(** ** From stats to tier *)

Lemma Field_eq_dec (f g : Field) : {f = g} + {f <> g}.
Proof. decide equality. Defined.

(** X23: raising one field of the stats, the others unchanged, never
    moves the user to a lower tier. *)
Theorem more_activity_never_demotes (f : Field) (us : UserStats) (d : Z) :
  0 <= d ->
  level (rank (getUserRank (calculateRankingPoints us)))
  <= level
       (rank
          (getUserRank
             (calculateRankingPoints (setField f (getField f us + d) us)))).
Proof.
  intros Hd. apply getUserRank_level_le.
  rewrite !calculateRankingPoints_unfold.
  apply Z.max_le_compat_l, weightedSum_monotone. intros g.
  destruct (Field_eq_dec f g) as [<- | Hne].
  - rewrite getField_setField_same. lia.
  - rewrite getField_setField_other by exact Hne. lia.
Qed.

Lemma more_activity_never_demotes_witness :
  0 <= 40
  /\ level (rank (getUserRank (calculateRankingPoints scenarioStats)))
     <= level
          (rank
             (getUserRank
                (calculateRankingPoints
                   (setField PersonalRecords
                      (getField PersonalRecords scenarioStats + 40)
                      scenarioStats)))).
Proof.
  split; [lia |].
  apply (more_activity_never_demotes PersonalRecords scenarioStats 40). lia.
Defined.

(** ** The array and the walk, in general *)

(** X24: what the call leaves in the caller's array: the same workouts,
    none added or dropped, ordered by date with the latest first. *)
Theorem array_after_stats_call (tz now : Z) (ws : list Workout) :
  Permutation ws (snd (calculateUserStats tz now ws))
  /\ List.length (snd (calculateUserStats tz now ws)) = List.length ws
  /\ Sorted (fun a b => workout_date b <= workout_date a)
       (snd (calculateUserStats tz now ws))
  /\ snd (calculateUserStats tz now ws)
     = snd (calculateStreaks tz now
              (arraySort (fun a b => workout_date a - workout_date b) ws)).
Proof.
  pose proof (calculateUserStats_keeps_elements tz now ws) as Hperm.
  split; [exact Hperm |].
  split; [symmetry; apply Permutation_length, Hperm |].
  split.
  - rewrite calculateUserStats_array.
    eapply Sorted_ind with
      (P := fun l => Sorted (fun a b => workout_date b <= workout_date a) l);
      [constructor | | apply arraySort_sorted; intros x y; lia].
    intros a l _ IH Hhd. constructor; [exact IH |].
    destruct Hhd; constructor. lia.
  - rewrite calculateUserStats_array, calculateStreaks_array. reflexivity.
Qed.

